(** * pills-bot: the medicine lookup adapter of [main.go]

    A shallow embedding of the Telegram bot in [main.go] and the proofs of
    its contract.  Go strings are byte strings ([string]); Go's [int] is
    modelled as [Z] with the 64-bit bounds written out where the library
    checks them; a pointer that may be nil is an [option]; the effects of
    a handler (log lines, the HTTP round trip, calls on the chat
    transport, a run-time panic) are collected by a small monad. *)

From Stdlib Require Import ZArith String Ascii.
From stdpp Require Import base list strings gmap.

(** ** Errors *)

Inductive NumErrKind := ErrSyntax | ErrRange.

(** A Go [error] value: the [*strconv.NumError] of the conversions, or any
    other error, of which only the text is kept. *)
Inductive error :=
| NumError (Func Num : string) (Err : NumErrKind)
| OtherError (msg : string).

(** ** Package [strconv] *)

Module Strconv.

Definition is_digit (ch : ascii) : bool :=
  let n := N_of_ascii ch in (48 <=? n)%N && (n <=? 57)%N.

Definition maxUint64 : Z := (2 ^ 64 - 1)%Z.

(** The loop of [ParseUint s 10 64], from the value [n] on, byte by
    byte: a byte that is not a decimal digit is a syntax error with 0; a
    digit that takes the value past [maxUint64] is a range error with
    [maxUint64], returned at that digit, before the bytes after it are
    looked at. *)
Fixpoint parse_uint (s : string) (n : Z) : Z * option NumErrKind :=
  match s with
  | EmptyString => (n, None)
  | String ch rest =>
      if is_digit ch
      then
        let d := (Z.of_N (N_of_ascii ch) - 48)%Z in
        if (maxUint64 / 10 + 1 <=? n)%Z
        then (maxUint64, Some ErrRange)
        else
          let n1 := (n * 10 + d)%Z in
          if (maxUint64 <? n1)%Z
          then (maxUint64, Some ErrRange)
          else parse_uint rest n1
      else (0%Z, Some ErrSyntax)
  end.

Definition syntaxError (fn s : string) : error := NumError fn s ErrSyntax.
Definition rangeError (fn s : string) : error := NumError fn s ErrRange.

(** [strconv.Atoi] on a 64-bit platform, as [ParseInt s 10 0] computes
    it (the fast path for strings of fewer than 19 bytes gives the same
    results: such a string cannot overflow).  An optional sign, then
    [ParseUint] on the rest.  A syntax error returns 0; a range error of
    [ParseUint], or a value outside [-2^63, 2^63), returns the nearest
    bound of [int] together with a range error. *)
Definition Atoi (s : string) : Z * option error :=
  match s with
  | EmptyString => (0%Z, Some (syntaxError "Atoi" s))
  | String c rest =>
      let neg := Ascii.eqb c "-" in
      let body := if neg || Ascii.eqb c "+" then rest else s in
      match body with
      | EmptyString => (0%Z, Some (syntaxError "Atoi" s))
      | _ =>
          match parse_uint body 0 with
          | (_, Some ErrSyntax) => (0%Z, Some (syntaxError "Atoi" s))
          | (un, _) =>
              if negb neg && (2 ^ 63 <=? un)%Z
              then ((2 ^ 63 - 1)%Z, Some (rangeError "Atoi" s))
              else if neg && (2 ^ 63 <? un)%Z
              then ((- 2 ^ 63)%Z, Some (rangeError "Atoi" s))
              else ((if neg then - un else un)%Z, None)
          end
      end
  end.

Definition digit_char (d : Z) : ascii := ascii_of_N (Z.to_N (48 + d)).

(** The loop of [formatBits] in base 10: the digits of [u], least
    significant first, are pushed in front of [acc].  Twenty rounds cover
    every 64-bit value. *)
Fixpoint format_digits (fuel : nat) (u : Z) (acc : string) : string :=
  match fuel with
  | O => acc
  | S fuel' =>
      let acc' := String (digit_char (u mod 10)) acc in
      if (u <? 10)%Z then acc' else format_digits fuel' (u / 10) acc'
  end.

(** [strconv.Itoa]. *)
Definition Itoa (i : Z) : string :=
  if (i <? 0)%Z then String "-" (format_digits 20 (- i) "")
  else format_digits 20 i "".

End Strconv.

(** ** Package [strings] *)

Module Strings.

(** [strings.Split s sep] for a separator of one byte, which is how the
    program calls it: the pieces between the separators, always at least
    one. *)
Fixpoint Split (s : string) (sep : ascii) : list string :=
  match s with
  | EmptyString => [""]
  | String c rest =>
      if Ascii.eqb c sep then "" :: Split rest sep
      else match Split rest sep with
           | [] => [String c ""]
           | piece :: pieces => String c piece :: pieces
           end
  end.

(** [strings.Count s sep] for a separator of one byte. *)
Fixpoint Count (s : string) (sep : ascii) : nat :=
  match s with
  | EmptyString => 0
  | String c rest => (if Ascii.eqb c sep then 1 else 0) + Count rest sep
  end.

Definition HasPrefix (s pre : string) : bool := String.prefix pre s.

(** [strings.Contains]. *)
Fixpoint Contains (s substr : string) : bool :=
  String.prefix substr s ||
  match s with
  | EmptyString => false
  | String _ rest => Contains rest substr
  end.

End Strings.

(** ** Package [unicode/utf8] and the strings of [encoding/json] *)

Module Utf8.

(** The entry of the table [first] for a leading byte: one byte of
    ASCII, a byte that starts no encoding, or the size of the encoding
    and the range its second byte must be in. *)
Inductive Lead :=
| ASCII
| Invalid
| Multi (size : nat) (lo hi : N).

Definition first (b : N) : Lead :=
  if (b <? 0x80)%N then ASCII
  else if (b <? 0xC2)%N then Invalid
  else if (b <? 0xE0)%N then Multi 2 0x80 0xBF
  else if (b =? 0xE0)%N then Multi 3 0xA0 0xBF
  else if (b <? 0xED)%N then Multi 3 0x80 0xBF
  else if (b =? 0xED)%N then Multi 3 0x80 0x9F
  else if (b <? 0xF0)%N then Multi 3 0x80 0xBF
  else if (b =? 0xF0)%N then Multi 4 0x90 0xBF
  else if (b <? 0xF4)%N then Multi 4 0x80 0xBF
  else if (b =? 0xF4)%N then Multi 4 0x80 0x8F
  else Invalid.

Definition between (lo hi : N) (c : ascii) : bool :=
  (lo <=? N_of_ascii c)%N && (N_of_ascii c <=? hi)%N.

(** The size [DecodeRuneInString] returns for the encoding at the head
    of [s]; [None] stands for its answer (RuneError, 1) on a byte that
    does not start a complete, well-formed encoding. *)
Definition rune_size (s : string) : option nat :=
  match s with
  | EmptyString => None
  | String s0 rest =>
      match first (N_of_ascii s0) with
      | ASCII => Some 1
      | Invalid => None
      | Multi size lo hi =>
          match rest with
          | EmptyString => None
          | String s1 rest1 =>
              if negb (between lo hi s1) then None
              else if (size <=? 2)%nat then Some 2
              else
                match rest1 with
                | EmptyString => None
                | String s2 rest2 =>
                    if negb (between 0x80 0xBF s2) then None
                    else if (size <=? 3)%nat then Some 3
                    else
                      match rest2 with
                      | EmptyString => None
                      | String s3 _ =>
                          if negb (between 0x80 0xBF s3) then None else Some 4
                      end
                end
          end
      end
  end.

(** [utf8.ValidString], with [pending] bytes of the current encoding
    still to pass. *)
Fixpoint valid_from (pending : nat) (s : string) : bool :=
  match s with
  | EmptyString => true
  | String b rest =>
      match pending with
      | S k => valid_from k rest
      | O =>
          match rune_size s with
          | Some (S k) => valid_from k rest
          | _ => false
          end
      end
  end.

Definition ValidString (s : string) : bool := valid_from 0 s.

(** The encoding of U+FFFD. *)
Definition RuneError : string := String "239" (String "191" (String "189" "")).

End Utf8.

(** The text a JSON parser reads back from the string [encoding/json]
    writes for [src]: the encoder's loop passes every well-formed
    encoding on (its escapes denote the same characters) and writes
    U+FFFD for each byte on which [DecodeRuneInString] answers
    (RuneError, 1).  [pending] counts the bytes of the current encoding
    still to copy. *)
Fixpoint appendString (pending : nat) (src : string) : string :=
  match src with
  | EmptyString => EmptyString
  | String b rest =>
      match pending with
      | S k => String b (appendString k rest)
      | O =>
          match Utf8.rune_size src with
          | Some (S k) => String b (appendString k rest)
          | _ => Utf8.RuneError +:+ appendString 0 rest
          end
      end
  end.

Definition json_string (src : string) : string := appendString 0 src.

(** ** Process environment: [os.Getenv] and [godotenv.Load] *)

Module Os.

(** [os.Getenv]: the value of the variable, empty when it is not set. *)
Definition Getenv (environ : gmap string string) (key : string) : string :=
  default "" (environ !! key).

End Os.

Module Godotenv.

(** [godotenv.Load]: every variable of the file is exported unless it is
    already set in the environment.  The file is given parsed, as the
    map the library reads it into; [None] is a file that cannot be read
    or parsed. *)
Definition Load (file : option (gmap string string))
    (environ : gmap string string) : gmap string string * option error :=
  match file with
  | None => (environ, Some (OtherError "open .env"))
  | Some vars => (environ ∪ vars, None)
  end.

End Godotenv.

(** ** The program's data model *)

Module SearchMedicineRequest.
Record t := mk {
  ApiKey : string;
  State : string;
  HoumeCountry : Z;
  Query : string
}.
End SearchMedicineRequest.

Module Medicine.
Record t := mk {
  ID : string;
  Name : string;
  Components : string;
  Slug : string;
  IsPopular : Z
}.
End Medicine.

Module SearchMedicineResponse.
Record t := mk { Medicines : list Medicine.t }.
End SearchMedicineResponse.

Module SearchAnalogRequest.
Record t := mk {
  ApiKey : string;
  State : string;
  HoumeCountry : Z;
  TargetCountry : Z;
  Language : string;
  Medicine : Z
}.
End SearchAnalogRequest.

Module MedicineInfo.
Record t := mk {
  MedicineID : string;
  MedicineName : string;
  MedicineSlug : string;
  DateRevision : string
}.
(** The zero value [MedicineInfo{}]. *)
Definition zero : t := mk "" "" "" "".
End MedicineInfo.

Module Analog.
Record t := mk {
  AnalogID : string;
  AnalogName : string;
  AnalogSlug : string;
  ComponentsMatch : Z;
  ApplyingsMatch : Z;
  TreatmentsMatch : Z;
  Percentage : Z
}.
End Analog.

Module SearchAnalogResponse.
Record t := mk {
  MedicineInfo : MedicineInfo.t;
  HomeCountry : MedicineInfo.t;
  Analogs : list Analog.t
}.
End SearchAnalogResponse.

(** The package-level variables set by [main] and read by the handlers. *)
Record Globals := mkGlobals {
  ApiKey : string;
  HoumeCountryID : Z;
  TargetCountryID : Z
}.

Definition ApiUrl : string := "https://api.pillintrip.com/search".

(** ** Start-up: [init] and [main] *)

(** What a run of the process comes to before any update is handled:
    [log.Fatal] prints its argument and exits with status 1; otherwise the
    bot is started with its token and the globals as [main] left them. *)
Inductive Startup :=
| Fatal (status : Z) (diagnostic : string + error)
| Started (token : string) (g : Globals).

Definition log_Fatal (v : string + error) : Startup := Fatal 1 v.

(** [init]: load [.env] into the environment or die. *)
Definition init (dotenv : option (gmap string string))
    (environ : gmap string string) : Startup + gmap string string :=
  let '(environ', err) := Godotenv.Load dotenv environ in
  match err with
  | Some _ => inl (log_Fatal (inl "Error loading .env file"))
  | None => inr environ'
  end.

(** [main], up to the call of [b.Start].  [bot_New] is the outcome of
    [bot.New] on the token ([Some] error when the transport refuses it).
    The globals are threaded through the assignments in source order. *)
Definition main (bot_New : string -> option error)
    (environ : gmap string string) : Startup :=
  let BotToken := Os.Getenv environ "BOT_TOKEN" in
  if (String.length BotToken =? 0)%nat
  then log_Fatal (inl "Не указан токен телеграм бота")
  else
    let ApiKey := Os.Getenv environ "API_KEY" in
    if (String.length ApiKey =? 0)%nat
    then log_Fatal (inl "Не указан ключ API")
    else
      let '(HoumeCountryID, err) := Strconv.Atoi (Os.Getenv environ "HOME_COUNTRY_ID") in
      let HoumeCountryID := match err with Some _ => 0%Z | None => HoumeCountryID end in
      if (HoumeCountryID =? 0)%Z
      then log_Fatal (inl "Не указана домашняя страна")
      else
        let '(TargetCountryID, err) := Strconv.Atoi (Os.Getenv environ "TARGET_COUNTRY_ID") in
        let TargetCountryID := match err with Some _ => 0%Z | None => TargetCountryID end in
        if (TargetCountryID =? 0)%Z
        then log_Fatal (inl "Не указана страна поиска")
        else
          match bot_New BotToken with
          | Some err => log_Fatal (inr err)
          | None => Started BotToken (mkGlobals ApiKey HoumeCountryID TargetCountryID)
          end.

(** The whole start-up: [init] runs before [main]. *)
Definition startup (bot_New : string -> option error)
    (dotenv : option (gmap string string))
    (environ : gmap string string) : Startup :=
  match init dotenv environ with
  | inl dead => dead
  | inr environ' => main bot_New environ'
  end.

Definition exits_nonzero (s : Startup) : Prop :=
  exists status diagnostic, s = Fatal status diagnostic /\ status <> 0%Z.

(** A country id as [main] reads it from the variable [key]. *)
Definition country_id (environ : gmap string string) (key : string) : Z * option error :=
  Strconv.Atoi (Os.Getenv environ key).

(** The id is refused by [main]: the conversion failed or gave 0. *)
Definition id_unusable (environ : gmap string string) (key : string) : Prop :=
  (country_id environ key).2 <> None \/ (country_id environ key).1 = 0%Z.

(** The spec's reading: the variable holds a positive integer. *)
Definition id_positive (environ : gmap string string) (key : string) : Prop :=
  (country_id environ key).2 = None /\ (0 < (country_id environ key).1)%Z.

Definition env_negative_home : gmap string string :=
  {[ "BOT_TOKEN" := "t0ken"; "API_KEY" := "k3y";
     "HOME_COUNTRY_ID" := "-5"; "TARGET_COUNTRY_ID" := "7" ]}.

Definition env_missing_target : gmap string string :=
  {[ "BOT_TOKEN" := "t0ken"; "API_KEY" := "k3y"; "HOME_COUNTRY_ID" := "12" ]}.

(** A [.env] file that sets the keys and a home country, for a process
    started with [TARGET_COUNTRY_ID] in its environment. *)
Definition dotenv_sample : gmap string string :=
  {[ "BOT_TOKEN" := "t0ken"; "API_KEY" := "k3y"; "HOME_COUNTRY_ID" := "-5";
     "TARGET_COUNTRY_ID" := "99" ]}.

Definition environ_sample : gmap string string := {[ "TARGET_COUNTRY_ID" := "7" ]}.

(** ** The chat transport: package [models] of go-telegram/bot *)

Module Chat.
Record t := mk { ID : Z }.
End Chat.

Module Message.
Record t := mk { Chat : Chat.t; Text : string }.
End Message.

(** [Message] is a pointer in the library: nil when the query does not
    come from a message the bot still has access to. *)
Module CallbackQuery.
Record t := mk { ID : string; Message : option Message.t; Data : string }.
End CallbackQuery.

(** Both members are pointers, nil when the update is of another kind. *)
Module Update.
Record t := mk {
  Message : option Message.t;
  CallbackQuery : option CallbackQuery.t
}.
End Update.

(** The members of [models.InlineKeyboardButton] the program sets; a
    member left out of a literal has its zero value, the empty string. *)
Module InlineKeyboardButton.
Record t := mk { Text : string; URL : string; CallbackData : string }.
End InlineKeyboardButton.

Module InlineKeyboardMarkup.
Record t := mk { InlineKeyboard : list (list InlineKeyboardButton.t) }.
End InlineKeyboardMarkup.

Module SendMessageParams.
Record t := mk {
  ChatID : Z;
  Text : string;
  ReplyMarkup : option InlineKeyboardMarkup.t
}.
End SendMessageParams.

Module AnswerCallbackQueryParams.
Record t := mk { CallbackQueryID : string; ShowAlert : bool }.
End AnswerCallbackQueryParams.

(** ** JSON and HTTP *)

(** The JSON values [json.Marshal] builds from the two request structs,
    as a parser of the body reads them. *)
#[warnings="-register-all"] Inductive JSON :=
| JString (s : string)
| JNumber (n : Z)
| JObject (members : list (string * JSON)).

Module Request.
Record t := mk {
  Method : string;
  URL : string;
  Header : list (string * string);
  Body : JSON
}.
End Request.

(** A response is its body, the bytes the decoder reads. *)
Module Response.
Record t := mk { Body : string }.
End Response.

(** What the program calls and does not define: the HTTP round trip of
    [client.Do], and [json.Decoder.Decode] at the two response types.
    [Decode] receives a zero value and leaves in it whatever it had
    decoded when it stopped, next to the error if there is one. *)
Record Runtime := mkRuntime {
  client_Do : Request.t -> Response.t + error;
  Decode_SearchMedicineResponse : string -> SearchMedicineResponse.t * option error;
  Decode_SearchAnalogResponse : string -> SearchAnalogResponse.t * option error
}.

(** [json.Marshal] of the two request structs: one member per field,
    under its [json] tag, in declaration order; every string field goes
    through the encoder's string loop.  It cannot fail on structs of
    strings and ints. *)
Definition Marshal_SearchMedicineRequest (r : SearchMedicineRequest.t) : JSON :=
  JObject [ ("api_key", JString (json_string (SearchMedicineRequest.ApiKey r)));
            ("state", JString (json_string (SearchMedicineRequest.State r)));
            ("home_country", JNumber (SearchMedicineRequest.HoumeCountry r));
            ("query", JString (json_string (SearchMedicineRequest.Query r))) ].

Definition Marshal_SearchAnalogRequest (r : SearchAnalogRequest.t) : JSON :=
  JObject [ ("api_key", JString (json_string (SearchAnalogRequest.ApiKey r)));
            ("state", JString (json_string (SearchAnalogRequest.State r)));
            ("home_country", JNumber (SearchAnalogRequest.HoumeCountry r));
            ("target_country", JNumber (SearchAnalogRequest.TargetCountry r));
            ("language", JString (json_string (SearchAnalogRequest.Language r)));
            ("medicine", JNumber (SearchAnalogRequest.Medicine r)) ].

(** The value of member [key] of a JSON object. *)
Definition member (key : string) (v : JSON) : option JSON :=
  match v with
  | JObject members => snd <$> List.find (fun kv => String.eqb kv.1 key) members
  | _ => None
  end.

Definition member_names (v : JSON) : list string :=
  match v with
  | JObject members => fst <$> members
  | _ => []
  end.

(** ** Effects *)

Inductive Event :=
| LogPrintf (line : string)
| LogPrintln (e : error)
| HttpDo (req : Request.t)
| SendMessage (p : SendMessageParams.t)
| AnswerCallbackQuery (p : AnswerCallbackQueryParams.t).

Inductive Outcome (A : Type) :=
| Ret (a : A)
| Panic (msg : string).
Arguments Ret {A} a.
Arguments Panic {A} msg.

(** A computation reads the run-time, returns or panics, and leaves the
    events it performed in order. *)
Definition IO (A : Type) : Type := Runtime -> Outcome A * list Event.

Definition ret {A} (a : A) : IO A := fun _ => (Ret a, []).

Definition bind {A B} (m : IO A) (k : A -> IO B) : IO B :=
  fun rt =>
    match m rt with
    | (Ret a, t) => let '(r, t') := k a rt in (r, t ++ t')
    | (Panic msg, t) => (Panic msg, t)
    end.

#[global] Instance IO_ret : MRet IO := @ret.
#[global] Instance IO_bind : MBind IO := fun A B k m => bind m k.

Definition emit (e : Event) : IO unit := fun _ => (Ret tt, [e]).
Definition panic {A} (msg : string) : IO A := fun _ => (Panic msg, []).

Definition log_Printf (line : string) : IO unit := emit (LogPrintf line).
Definition log_Println (e : error) : IO unit := emit (LogPrintln e).

(** [client.Do]: the request goes out and the run-time answers. *)
Definition Do (req : Request.t) : IO (Response.t + error) :=
  fun rt => (Ret (client_Do rt req), [HttpDo req]).

Definition decode_medicines (body : string) : IO (SearchMedicineResponse.t * option error) :=
  fun rt => (Ret (Decode_SearchMedicineResponse rt body), []).

Definition decode_analogs (body : string) : IO (SearchAnalogResponse.t * option error) :=
  fun rt => (Ret (Decode_SearchAnalogResponse rt body), []).

Definition b_SendMessage (p : SendMessageParams.t) : IO unit := emit (SendMessage p).
Definition b_AnswerCallbackQuery (p : AnswerCallbackQueryParams.t) : IO unit :=
  emit (AnswerCallbackQuery p).

(** Dereference of a pointer. *)
Definition deref {A} (p : option A) : IO A :=
  match p with
  | Some a => ret a
  | None => panic "invalid memory address or nil pointer dereference"
  end.

(** The index expression [a[i]] on a slice. *)
Definition index {A} (a : list A) (i : nat) : IO A :=
  match a !! i with
  | Some x => ret x
  | None => panic "index out of range"
  end.

(** [err != nil]. *)
Definition notnil (err : option error) : bool :=
  match err with Some _ => true | None => false end.

(** The line feed and the double quote of the source's string literals. *)
Definition newline : string := String "010" "".
Definition dquote : string := String "034" "".

(** ** The two API calls *)

Definition searchMedicines (g : Globals) (query : string)
    : IO (list Medicine.t * option error) :=
  let searchMedicineRequest :=
    {| SearchMedicineRequest.ApiKey := ApiKey g;
       SearchMedicineRequest.State := "main_search";
       SearchMedicineRequest.HoumeCountry := HoumeCountryID g;
       SearchMedicineRequest.Query := query |} in
  log_Printf ("Поиск лекарств: " +:+ query +:+ newline);;
  let body := Marshal_SearchMedicineRequest searchMedicineRequest in
  let request :=
    Request.mk "POST" ApiUrl [("Content-Type", "application/json")] body in
  response ← Do request;
  match response with
  | inr err => log_Println err;; ret ([], Some err)
  | inl response =>
      '(searchMedicineResponse, err) ← decode_medicines (Response.Body response);
      match err with
      | Some err => log_Println err;; ret ([], Some err)
      | None => ret (SearchMedicineResponse.Medicines searchMedicineResponse, None)
      end
  end.

Definition searchAnalogs (g : Globals) (medicineID : Z)
    : IO (list Analog.t * MedicineInfo.t * option error) :=
  let searchAnalogRequest :=
    {| SearchAnalogRequest.ApiKey := ApiKey g;
       SearchAnalogRequest.State := "main_search";
       SearchAnalogRequest.HoumeCountry := HoumeCountryID g;
       SearchAnalogRequest.TargetCountry := TargetCountryID g;
       SearchAnalogRequest.Language := "ru";
       SearchAnalogRequest.Medicine := medicineID |} in
  log_Printf ("Поиск аналогов: " +:+ Strconv.Itoa medicineID +:+ newline);;
  let body := Marshal_SearchAnalogRequest searchAnalogRequest in
  let request :=
    Request.mk "POST" ApiUrl [("Content-Type", "application/json")] body in
  response ← Do request;
  match response with
  | inr err => log_Println err;; ret ([], MedicineInfo.zero, Some err)
  | inl response =>
      '(searchAnalogResponse, err) ← decode_analogs (Response.Body response);
      match err with
      | Some err =>
          log_Println err;;
          ret (SearchAnalogResponse.Analogs searchAnalogResponse,
               SearchAnalogResponse.HomeCountry searchAnalogResponse, Some err)
      | None =>
          ret (SearchAnalogResponse.Analogs searchAnalogResponse,
               SearchAnalogResponse.MedicineInfo searchAnalogResponse, None)
      end
  end.

(** ** The handlers *)

Definition startHandler (g : Globals) (update : Update.t) : IO unit :=
  message ← deref (Update.Message update);
  b_SendMessage
    {| SendMessageParams.ChatID := Chat.ID (Message.Chat message);
       SendMessageParams.Text :=
         "Привет. Я помогу вам найти аналоги лекарств в Таиланде. Для поиска введите название лекарства.";
       SendMessageParams.ReplyMarkup := None |}.

Definition medicineButton (medicine : Medicine.t) : list InlineKeyboardButton.t :=
  [ {| InlineKeyboardButton.Text := Medicine.Name medicine;
       InlineKeyboardButton.URL := "";
       InlineKeyboardButton.CallbackData := "search_analog:" +:+ Medicine.ID medicine |} ].

(** The [for index, medicine := range medicines] loop of
    [searchMedicineHandler], from position [index] on. *)
Fixpoint medicineButtons (index : nat) (medicines : list Medicine.t)
    (buttons : list (list InlineKeyboardButton.t)) : list (list InlineKeyboardButton.t) :=
  match medicines with
  | [] => buttons
  | medicine :: rest =>
      if (index =? 10)%nat then buttons
      else medicineButtons (S index) rest (buttons ++ [medicineButton medicine])
  end.

Definition searchMedicineHandler (g : Globals) (update : Update.t) : IO unit :=
  match Update.Message update with
  | None => ret tt
  | Some message =>
      '(medicines, err) ← searchMedicines g (Message.Text message);
      if notnil err || (length medicines =? 0)%nat
      then
        b_SendMessage
          {| SendMessageParams.ChatID := Chat.ID (Message.Chat message);
             SendMessageParams.Text := "Мне не удалось ничего найти.";
             SendMessageParams.ReplyMarkup := None |}
      else
        let buttons := medicineButtons 0 medicines [] in
        b_SendMessage
          {| SendMessageParams.ChatID := Chat.ID (Message.Chat message);
             SendMessageParams.Text :=
               "Вот что я нашел. Выберите лекарство, для которого нужно найти аналоги.";
             SendMessageParams.ReplyMarkup :=
               Some {| InlineKeyboardMarkup.InlineKeyboard := buttons |} |}
  end.

Definition analogButton (analog : Analog.t) : list InlineKeyboardButton.t :=
  [ {| InlineKeyboardButton.Text :=
         Analog.AnalogName analog +:+ " (" +:+ Strconv.Itoa (Analog.Percentage analog) +:+ "%)";
       InlineKeyboardButton.URL :=
         "https://pillintrip.com/ru/medicine/" +:+ Analog.AnalogSlug analog;
       InlineKeyboardButton.CallbackData := "" |} ].

(** The [for index, analog := range analogs] loop of
    [searcheAnalogHandler]. *)
Fixpoint analogButtons (index : nat) (analogs : list Analog.t)
    (buttons : list (list InlineKeyboardButton.t)) : list (list InlineKeyboardButton.t) :=
  match analogs with
  | [] => buttons
  | analog :: rest =>
      if (index =? 10)%nat then buttons
      else analogButtons (S index) rest (buttons ++ [analogButton analog])
  end.

(** [strconv.Atoi(strings.Split(data, ":")[1])] with the error dropped. *)
Definition callbackID (data : string) : IO Z :=
  field ← index (Strings.Split data ":") 1;
  ret (Strconv.Atoi field).1.

Definition searcheAnalogHandler (g : Globals) (update : Update.t) : IO unit :=
  callbackQuery ← deref (Update.CallbackQuery update);
  b_AnswerCallbackQuery
    {| AnswerCallbackQueryParams.CallbackQueryID := CallbackQuery.ID callbackQuery;
       AnswerCallbackQueryParams.ShowAlert := false |};;
  medicineID ← callbackID (CallbackQuery.Data callbackQuery);
  '(analogs, medicineInfo, err) ← searchAnalogs g medicineID;
  if notnil err || (length analogs =? 0)%nat
  then
    message ← deref (CallbackQuery.Message callbackQuery);
    b_SendMessage
      {| SendMessageParams.ChatID := Chat.ID (Message.Chat message);
         SendMessageParams.Text :=
           "Мне не удалось найти аналоги для " +:+ dquote
           +:+ MedicineInfo.MedicineName medicineInfo +:+ dquote +:+ ".";
         SendMessageParams.ReplyMarkup := None |}
  else
    let buttons := analogButtons 0 analogs [] in
    message ← deref (CallbackQuery.Message callbackQuery);
    b_SendMessage
      {| SendMessageParams.ChatID := Chat.ID (Message.Chat message);
         SendMessageParams.Text :=
           "Вот аналоги для " +:+ dquote
           +:+ MedicineInfo.MedicineName medicineInfo +:+ dquote +:+ ":";
         SendMessageParams.ReplyMarkup :=
           Some {| InlineKeyboardMarkup.InlineKeyboard := buttons |} |}.

Definition showMedicineHandler (g : Globals) (update : Update.t) : IO unit :=
  callbackQuery ← deref (Update.CallbackQuery update);
  b_AnswerCallbackQuery
    {| AnswerCallbackQueryParams.CallbackQueryID := CallbackQuery.ID callbackQuery;
       AnswerCallbackQueryParams.ShowAlert := false |};;
  medicineID ← callbackID (CallbackQuery.Data callbackQuery);
  message ← deref (CallbackQuery.Message callbackQuery);
  b_SendMessage
    {| SendMessageParams.ChatID := Chat.ID (Message.Chat message);
       SendMessageParams.Text :=
         "Тут инфа по ценам для MedicineId=" +:+ Strconv.Itoa medicineID;
       SendMessageParams.ReplyMarkup := None |}.

(** ** Dispatch, as [main] registers the handlers *)

Inductive HandlerType := HandlerTypeMessageText | HandlerTypeCallbackQueryData.
Inductive MatchType := MatchTypeExact | MatchTypePrefix.

Record handler := mkHandler {
  handlerType : HandlerType;
  matchType : MatchType;
  pattern : string;
  handlerFunc : Globals -> Update.t -> IO unit
}.

(** The library's [handler.match]: the text of a message or the data of a
    callback query, compared with the pattern. *)
Definition handler_match (h : handler) (update : Update.t) : bool :=
  let data :=
    match handlerType h with
    | HandlerTypeMessageText => Message.Text <$> Update.Message update
    | HandlerTypeCallbackQueryData => CallbackQuery.Data <$> Update.CallbackQuery update
    end in
  match data with
  | None => false
  | Some data =>
      match matchType h with
      | MatchTypeExact => String.eqb data (pattern h)
      | MatchTypePrefix => Strings.HasPrefix data (pattern h)
      end
  end.

Definition handlers : list handler :=
  [ mkHandler HandlerTypeCallbackQueryData MatchTypePrefix "search_analog" searcheAnalogHandler;
    mkHandler HandlerTypeCallbackQueryData MatchTypePrefix "show_medicine" showMedicineHandler;
    mkHandler HandlerTypeMessageText MatchTypeExact "/start" startHandler ].

Definition same_type (a b : HandlerType) : bool :=
  match a, b with
  | HandlerTypeMessageText, HandlerTypeMessageText => true
  | HandlerTypeCallbackQueryData, HandlerTypeCallbackQueryData => true
  | _, _ => false
  end.

(** The library's [findHandler]: the handler registered for updates of
    kind [kind] that matches, the default handler
    [searchMedicineHandler] when none does. *)
Definition findHandler (kind : HandlerType) (update : Update.t)
    : Globals -> Update.t -> IO unit :=
  match List.find (fun h => same_type (handlerType h) kind && handler_match h update)
                  handlers with
  | Some h => handlerFunc h
  | None => searchMedicineHandler
  end.

(** The library's [ProcessUpdate] on one inbound update: an update
    with a message goes to the message-text handlers, and only an
    update without one that has a callback query goes to the
    callback-data handlers; anything else goes to the default handler. *)
Definition ProcessUpdate (g : Globals) (update : Update.t) : IO unit :=
  match Update.Message update with
  | Some _ => findHandler HandlerTypeMessageText update g update
  | None =>
      match Update.CallbackQuery update with
      | Some _ => findHandler HandlerTypeCallbackQueryData update g update
      | None => searchMedicineHandler g update
      end
  end.

(** ** Observations on a run *)

(** The messages sent to the chat, in order. *)
Definition sent (trace : list Event) : list SendMessageParams.t :=
  omap (fun e => match e with SendMessage p => Some p | _ => None end) trace.

(** The requests sent to the API, in order. *)
Definition requests (trace : list Event) : list Request.t :=
  omap (fun e => match e with HttpDo req => Some req | _ => None end) trace.

(** Everything that reaches the chat transport. *)
Definition chat (trace : list Event) : list Event :=
  List.filter (fun e => match e with
                        | SendMessage _ | AnswerCallbackQuery _ => true
                        | _ => false
                        end) trace.

(** ** Sample inputs *)

Definition g0 : Globals := mkGlobals "k3y" 12 7.

Definition chat1 : Message.t := Message.mk (Chat.mk 1001) "aspirin".

Definition text_update (text : string) : Update.t :=
  Update.mk (Some (Message.mk (Chat.mk 1001) text)) None.

Definition callback_update (data : string) : Update.t :=
  Update.mk None (Some (CallbackQuery.mk "cb1" (Some chat1) data)).

Definition med (n : nat) : Medicine.t :=
  Medicine.mk (Strconv.Itoa (Z.of_nat n)) ("Med" +:+ Strconv.Itoa (Z.of_nat n)) "" "" 0.

Definition twelve_medicines : list Medicine.t := med <$> seq 1 12.

(** The environment [main] reads: the process environment after [init]
    has loaded [.env] into it. *)
Definition loaded (dotenv : option (gmap string string))
    (environ : gmap string string) : gmap string string :=
  (Godotenv.Load dotenv environ).1.

(** The request [searchMedicines] is expected to send for [query]. *)
Definition medicineRequest (g : Globals) (query : string) : Request.t :=
  {| Request.Method := "POST";
     Request.URL := "https://api.pillintrip.com/search";
     Request.Header := [("Content-Type", "application/json")];
     Request.Body :=
       JObject [ ("api_key", JString (json_string (ApiKey g)));
                 ("state", JString "main_search");
                 ("home_country", JNumber (HoumeCountryID g));
                 ("query", JString (json_string query)) ] |}.

(** The request [searchAnalogs] is expected to send for [medicineID]. *)
Definition analogRequest (g : Globals) (medicineID : Z) : Request.t :=
  {| Request.Method := "POST";
     Request.URL := "https://api.pillintrip.com/search";
     Request.Header := [("Content-Type", "application/json")];
     Request.Body :=
       JObject [ ("api_key", JString (json_string (ApiKey g)));
                 ("state", JString "main_search");
                 ("home_country", JNumber (HoumeCountryID g));
                 ("target_country", JNumber (TargetCountryID g));
                 ("language", JString "ru");
                 ("medicine", JNumber medicineID) ] |}.

(** A run-time whose API answers every request with [answer] and whose
    decoders return the given values. *)
Definition fixed_runtime (answer : Response.t + error)
    (medicines : SearchMedicineResponse.t * option error)
    (analogs : SearchAnalogResponse.t * option error) : Runtime :=
  {| client_Do := fun _ => answer;
     Decode_SearchMedicineResponse := fun _ => medicines;
     Decode_SearchAnalogResponse := fun _ => analogs |}.

Definition no_analogs : SearchAnalogResponse.t :=
  SearchAnalogResponse.mk MedicineInfo.zero MedicineInfo.zero [].

Definition no_medicines : SearchMedicineResponse.t := SearchMedicineResponse.mk [].

(** The API returns twelve medicines for a query. *)
Definition rt_twelve : Runtime :=
  fixed_runtime (inl (Response.mk "{...}"))
    (SearchMedicineResponse.mk twelve_medicines, None) (no_analogs, None).

(** The log lines the two calls start with. *)
Definition medicineLog (query : string) : Event :=
  LogPrintf ("Поиск лекарств: " +:+ query +:+ newline).

Definition analogLog (medicineID : Z) : Event :=
  LogPrintf ("Поиск аналогов: " +:+ Strconv.Itoa medicineID +:+ newline).

Definition aspirin_info : MedicineInfo.t :=
  MedicineInfo.mk "42" "Aspirin" "aspirin" "2024-01-01".

Definition home_info : MedicineInfo.t :=
  MedicineInfo.mk "4200" "Aspirin Cardio" "aspirin-cardio" "2023-06-30".

Definition analog (n : nat) : Analog.t :=
  Analog.mk (Strconv.Itoa (Z.of_nat n)) ("Analog" +:+ Strconv.Itoa (Z.of_nat n))
    ("analog-" +:+ Strconv.Itoa (Z.of_nat n)) 1 2 3 (100 - Z.of_nat n).

Definition twelve_analogs : list Analog.t := analog <$> seq 1 12.

(** The API knows the medicine and no analog of it. *)
Definition rt_aspirin_alone : Runtime :=
  fixed_runtime (inl (Response.mk "{...}")) (no_medicines, None)
    (SearchAnalogResponse.mk aspirin_info MedicineInfo.zero [], None).

(** The API returns twelve analogs of the medicine. *)
Definition rt_twelve_analogs : Runtime :=
  fixed_runtime (inl (Response.mk "{...}")) (no_medicines, None)
    (SearchAnalogResponse.mk aspirin_info home_info twelve_analogs, None).

Definition type_error : error :=
  OtherError "json: cannot unmarshal string into Go struct field Analog.percentage of type int".

(** Decoding stops with an error after both infos and one analog. *)
Definition rt_decode_failure : Runtime :=
  fixed_runtime (inl (Response.mk "{...}")) (no_medicines, None)
    (SearchAnalogResponse.mk aspirin_info home_info [analog 1], Some type_error).

(** The values found under [key] in the bodies of the requests of a
    trace. *)
Definition request_members (key : string) (trace : list Event) : list (option JSON) :=
  (fun req => member key (Request.Body req)) <$> requests trace.

(** Everything a run does except its requests to the API: the log and
    the calls on the chat transport. *)
Definition observable (trace : list Event) : list Event :=
  List.filter (fun e => match e with HttpDo _ => false | _ => true end) trace.

Definition button_strings (b : InlineKeyboardButton.t) : list string :=
  [InlineKeyboardButton.Text b; InlineKeyboardButton.URL b;
   InlineKeyboardButton.CallbackData b].

(** Every message text, button label, button URL and callback payload
    sent to the chat by a run. *)
Definition chat_strings (trace : list Event) : list string :=
  flat_map (fun p =>
              SendMessageParams.Text p ::
              match SendMessageParams.ReplyMarkup p with
              | Some markup =>
                  flat_map (flat_map button_strings)
                           (InlineKeyboardMarkup.InlineKeyboard markup)
              | None => []
              end) (sent trace).

(** The API lists a medicine whose name is the text of the caller's API
    key. *)
Definition rt_echo : Runtime :=
  fixed_runtime (inl (Response.mk "{...}"))
    (SearchMedicineResponse.mk [Medicine.mk "1" "k3y" "" "k3y" 0], None)
    (no_analogs, None).

(** The globals with another API key. *)
Definition with_key (g : Globals) (key : string) : Globals :=
  mkGlobals key (HoumeCountryID g) (TargetCountryID g).

(** The values of Go's [int] on a 64-bit platform. *)
Definition is_int (n : Z) : Prop := (- 2 ^ 63 <= n < 2 ^ 63)%Z.

(** A query with the byte 0xFF, which is part of no UTF-8 encoding, in
    the middle. *)
Definition bad_query : string := "asp" +:+ String "255" "irin".

(** * Properties *)

(** ** The library models on sample values *)

Example Atoi_examples :
  Strconv.Atoi "42" = (42%Z, None) /\
  Strconv.Atoi "-5" = ((-5)%Z, None) /\
  Strconv.Atoi "+7" = (7%Z, None) /\
  Strconv.Atoi "" = (0%Z, Some (NumError "Atoi" "" ErrSyntax)) /\
  Strconv.Atoi "-" = (0%Z, Some (NumError "Atoi" "-" ErrSyntax)) /\
  Strconv.Atoi "4x" = (0%Z, Some (NumError "Atoi" "4x" ErrSyntax)) /\
  Strconv.Atoi "9223372036854775807" = (9223372036854775807%Z, None) /\
  Strconv.Atoi "9223372036854775808"
    = (9223372036854775807%Z, Some (NumError "Atoi" "9223372036854775808" ErrRange)) /\
  Strconv.Atoi "-9223372036854775808" = ((-9223372036854775808)%Z, None).
Proof. repeat split; vm_compute; reflexivity. Qed.

(** Where the digits overflow before a byte that is not a digit, the
    range error wins; where they do not, the syntax error does. *)
Example Atoi_overflow_examples :
  Strconv.Atoi "99999999999999999999x"
    = (9223372036854775807%Z, Some (NumError "Atoi" "99999999999999999999x" ErrRange))
  /\ Strconv.Atoi "-99999999999999999999x"
     = ((-9223372036854775808)%Z,
        Some (NumError "Atoi" "-99999999999999999999x" ErrRange))
  /\ Strconv.Atoi "12345678901234567890x"
     = (0%Z, Some (NumError "Atoi" "12345678901234567890x" ErrSyntax))
  /\ Strconv.Atoi "18446744073709551615"
     = (9223372036854775807%Z, Some (NumError "Atoi" "18446744073709551615" ErrRange))
  /\ Strconv.Atoi "18446744073709551616"
     = (9223372036854775807%Z, Some (NumError "Atoi" "18446744073709551616" ErrRange))
  /\ Strconv.Atoi "-9223372036854775809"
     = ((-9223372036854775808)%Z,
        Some (NumError "Atoi" "-9223372036854775809" ErrRange))
  /\ Strconv.Atoi "1_000" = (0%Z, Some (NumError "Atoi" "1_000" ErrSyntax)).
Proof. repeat split; vm_compute; reflexivity. Qed.

Example Itoa_examples :
  Strconv.Itoa 0 = "0" /\ Strconv.Itoa 75 = "75" /\ Strconv.Itoa 100 = "100" /\
  Strconv.Itoa (-3) = "-3" /\
  Strconv.Itoa (-9223372036854775808) = "-9223372036854775808".
Proof. repeat split; vm_compute; reflexivity. Qed.

Example Split_examples :
  Strings.Split "search_analog:42" ":" = ["search_analog"; "42"] /\
  Strings.Split "search_analog" ":" = ["search_analog"] /\
  Strings.Split "a::b" ":" = ["a"; ""; "b"] /\
  Strings.Split "" ":" = [""].
Proof. repeat split. Qed.

Example callbackID_examples rt :
  callbackID "search_analog:42" rt = (Ret 42%Z, [])
  /\ callbackID "search_analog:x" rt = (Ret 0%Z, [])
  /\ callbackID "search_analog:4:2" rt = (Ret 4%Z, [])
  /\ callbackID "search_analog" rt = (Panic "index out of range", []).
Proof. repeat split. Qed.

(** ** Start-up *)

(** A variable of the environment is not overridden by [.env]. *)
Example startup_sample :
  startup (fun _ => None) (Some dotenv_sample) environ_sample
  = Started "t0ken" (mkGlobals "k3y" (-5) 7).
Proof. vm_compute. reflexivity. Qed.

Lemma Atoi_missing : Strconv.Atoi "" = (0%Z, Some (NumError "Atoi" "" ErrSyntax)).
Proof. reflexivity. Qed.

(** A variable that is not set is an unusable id. *)
Lemma unset_id_unusable (environ : gmap string string) (key : string) :
  environ !! key = None -> id_unusable environ key.
Proof.
  intros Hnone. left. unfold country_id, Os.Getenv. rewrite Hnone. simpl. discriminate.
Qed.

(** [main] dies on an unusable id, whatever the other settings are. *)
Lemma main_refuses_unusable_ids bot_New (environ : gmap string string) :
  id_unusable environ "HOME_COUNTRY_ID" \/ id_unusable environ "TARGET_COUNTRY_ID" ->
  exists diagnostic, main bot_New environ = Fatal 1 diagnostic.
Proof.
  unfold id_unusable, country_id, main, log_Fatal.
  intros Hbad.
  destruct (String.length (Os.Getenv environ "BOT_TOKEN") =? 0)%nat; [eauto|].
  destruct (String.length (Os.Getenv environ "API_KEY") =? 0)%nat; [eauto|].
  destruct (Strconv.Atoi (Os.Getenv environ "HOME_COUNTRY_ID")) as [home herr].
  destruct (Strconv.Atoi (Os.Getenv environ "TARGET_COUNTRY_ID")) as [target terr].
  simpl in Hbad.
  destruct herr as [e|]; simpl; [eauto|].
  destruct (Z.eqb_spec home 0) as [->|Hhome]; [eauto|].
  destruct terr as [e|]; simpl; [eauto|].
  destruct (Z.eqb_spec target 0) as [->|Htarget]; [eauto|].
  exfalso. destruct Hbad as [[H|H]|[H|H]]; congruence.
Qed.

(** [main] starts the bot on any two ids that convert and are not 0,
    negative ones included. *)
Lemma main_starts bot_New (environ : gmap string string) home target :
  Os.Getenv environ "BOT_TOKEN" <> "" ->
  Os.Getenv environ "API_KEY" <> "" ->
  country_id environ "HOME_COUNTRY_ID" = (home, None) -> home <> 0%Z ->
  country_id environ "TARGET_COUNTRY_ID" = (target, None) -> target <> 0%Z ->
  bot_New (Os.Getenv environ "BOT_TOKEN") = None ->
  main bot_New environ
  = Started (Os.Getenv environ "BOT_TOKEN")
            (mkGlobals (Os.Getenv environ "API_KEY") home target).
Proof.
  unfold country_id, main. intros Htok Hkey Hh Hh0 Ht Ht0 Hnew.
  destruct (Os.Getenv environ "BOT_TOKEN") as [|c s] eqn:Etok; [done|].
  destruct (Os.Getenv environ "API_KEY") as [|c' s'] eqn:Ekey; [done|].
  simpl. rewrite Hh, Ht. simpl.
  destruct (Z.eqb_spec home 0); [done|].
  destruct (Z.eqb_spec target 0); [done|].
  by rewrite Hnew.
Qed.

(** C2, as amended: whenever the home-country id or the target-country
    id that [main] reads is missing, not a number, out of the range of
    [int], or zero, the process exits with status 1 and a diagnostic and
    the bot is not started.  (The sign is not looked at.) *)
Theorem startup_refuses_unusable_ids bot_New dotenv (environ : gmap string string) :
  id_unusable (loaded dotenv environ) "HOME_COUNTRY_ID"
  \/ id_unusable (loaded dotenv environ) "TARGET_COUNTRY_ID" ->
  exits_nonzero (startup bot_New dotenv environ).
Proof.
  intros Hbad. unfold startup, init, loaded in *.
  destruct (Godotenv.Load dotenv environ) as [environ' [err|]]; simpl in *.
  - exists 1%Z, (inl "Error loading .env file"). split; [reflexivity|lia].
  - destruct (main_refuses_unusable_ids bot_New environ' Hbad) as [d Hd].
    exists 1%Z, d. split; [assumption|lia].
Qed.

(** Without [TARGET_COUNTRY_ID] the process exits. *)
Lemma startup_refuses_unusable_ids_witness :
  id_unusable (loaded (Some ∅) env_missing_target) "TARGET_COUNTRY_ID"
  /\ exits_nonzero (startup (fun _ => None) (Some ∅) env_missing_target).
Proof.
  assert (H : id_unusable (loaded (Some ∅) env_missing_target) "TARGET_COUNTRY_ID").
  { left. vm_compute. discriminate. }
  split; [exact H|].
  apply (startup_refuses_unusable_ids (fun _ => None) (Some ∅) env_missing_target).
  right. exact H.
Defined.

(** C2, as stated, fails: a home-country id of -5 is not a positive
    integer, and the process starts the bot with it. *)
Lemma negative_country_id_accepted :
  ~ id_positive (loaded (Some ∅) env_negative_home) "HOME_COUNTRY_ID"
  /\ startup (fun _ => None) (Some ∅) env_negative_home
     = Started "t0ken" (mkGlobals "k3y" (-5) 7)
  /\ ~ exits_nonzero (startup (fun _ => None) (Some ∅) env_negative_home).
Proof.
  assert (Hrun : startup (fun _ => None) (Some ∅) env_negative_home
                 = Started "t0ken" (mkGlobals "k3y" (-5) 7)) by (vm_compute; reflexivity).
  split; [|split].
  - intros [_ Hpos]. vm_compute in Hpos. discriminate.
  - exact Hrun.
  - rewrite Hrun. intros (status & d & Heq & _). discriminate.
Qed.

(** ** The button loops *)

(** Both loops stop at index 10 or at the end of the slice: by induction
    on the slice, for any start index and any buttons collected so far. *)
Ltac range_loop items :=
  let IH := fresh "IH" in
  induction items as [|item rest IH]; intros index buttons Hle; simpl;
  [ by rewrite take_nil, app_nil_r
  | destruct (Nat.eqb_spec index 10) as [->|Hne];
    [ by rewrite app_nil_r
    | rewrite IH by lia;
      replace (10 - index) with (S (10 - S index)) by lia;
      simpl; by rewrite <- app_assoc ] ].

Lemma medicineButtons_spec medicines : forall index buttons,
  index <= 10 ->
  medicineButtons index medicines buttons
  = buttons ++ (medicineButton <$> take (10 - index) medicines).
Proof. range_loop medicines. Qed.

Lemma analogButtons_spec analogs : forall index buttons,
  index <= 10 ->
  analogButtons index analogs buttons
  = buttons ++ (analogButton <$> take (10 - index) analogs).
Proof. range_loop analogs. Qed.

Lemma medicineButtons_length medicines :
  length (medicineButtons 0 medicines []) = length medicines `min` 10.
Proof.
  rewrite medicineButtons_spec by lia. simpl.
  rewrite length_fmap, length_take. lia.
Qed.

Lemma medicineButtons_lookup medicines i medicine :
  i < 10 -> medicines !! i = Some medicine ->
  medicineButtons 0 medicines [] !! i = Some (medicineButton medicine).
Proof.
  intros Hi Hm. rewrite medicineButtons_spec by lia. simpl.
  by rewrite list_lookup_fmap, lookup_take_lt, Hm by lia.
Qed.

Lemma analogButtons_length analogs :
  length (analogButtons 0 analogs []) = length analogs `min` 10.
Proof.
  rewrite analogButtons_spec by lia. simpl.
  rewrite length_fmap, length_take. lia.
Qed.

Lemma analogButtons_lookup analogs i analog :
  i < 10 -> analogs !! i = Some analog ->
  analogButtons 0 analogs [] !! i = Some (analogButton analog).
Proof.
  intros Hi Hm. rewrite analogButtons_spec by lia. simpl.
  by rewrite list_lookup_fmap, lookup_take_lt, Hm by lia.
Qed.

(** ** The runs of the two API calls *)

Lemma searchMedicines_run g query rt :
  searchMedicines g query rt =
  match client_Do rt (medicineRequest g query) with
  | inr err =>
      (Ret ([], Some err),
       [medicineLog query; HttpDo (medicineRequest g query); LogPrintln err])
  | inl response =>
      match Decode_SearchMedicineResponse rt (Response.Body response) with
      | (_, Some err) =>
          (Ret ([], Some err),
           [medicineLog query; HttpDo (medicineRequest g query); LogPrintln err])
      | (decoded, None) =>
          (Ret (SearchMedicineResponse.Medicines decoded, None),
           [medicineLog query; HttpDo (medicineRequest g query)])
      end
  end.
Proof.
  unfold searchMedicines, medicineRequest, medicineLog, mbind, IO_bind, bind,
    log_Printf, log_Println, emit, Do, decode_medicines, ret,
    Marshal_SearchMedicineRequest, ApiUrl; simpl.
  destruct (client_Do rt _) as [response|err]; simpl; [|reflexivity].
  destruct (Decode_SearchMedicineResponse rt _) as [decoded [err|]]; reflexivity.
Qed.

Lemma searchAnalogs_run g medicineID rt :
  searchAnalogs g medicineID rt =
  match client_Do rt (analogRequest g medicineID) with
  | inr err =>
      (Ret ([], MedicineInfo.zero, Some err),
       [analogLog medicineID; HttpDo (analogRequest g medicineID); LogPrintln err])
  | inl response =>
      match Decode_SearchAnalogResponse rt (Response.Body response) with
      | (decoded, Some err) =>
          (Ret (SearchAnalogResponse.Analogs decoded,
                SearchAnalogResponse.HomeCountry decoded, Some err),
           [analogLog medicineID; HttpDo (analogRequest g medicineID); LogPrintln err])
      | (decoded, None) =>
          (Ret (SearchAnalogResponse.Analogs decoded,
                SearchAnalogResponse.MedicineInfo decoded, None),
           [analogLog medicineID; HttpDo (analogRequest g medicineID)])
      end
  end.
Proof.
  unfold searchAnalogs, analogRequest, analogLog, mbind, IO_bind, bind,
    log_Printf, log_Println, emit, Do, decode_analogs, ret,
    Marshal_SearchAnalogRequest, ApiUrl; simpl.
  destruct (client_Do rt _) as [response|err]; simpl; [|reflexivity].
  destruct (Decode_SearchAnalogResponse rt _) as [decoded [err|]]; reflexivity.
Qed.

(** The one request of a medicine search does not depend on the answer. *)
Lemma searchMedicines_requests g query rt :
  requests (searchMedicines g query rt).2 = [medicineRequest g query].
Proof.
  rewrite searchMedicines_run.
  destruct (client_Do rt _) as [response|err]; [|reflexivity].
  destruct (Decode_SearchMedicineResponse rt _) as [decoded [err|]]; reflexivity.
Qed.

Lemma searchAnalogs_requests g medicineID rt :
  requests (searchAnalogs g medicineID rt).2 = [analogRequest g medicineID].
Proof.
  rewrite searchAnalogs_run.
  destruct (client_Do rt _) as [response|err]; [|reflexivity].
  destruct (Decode_SearchAnalogResponse rt _) as [decoded [err|]]; reflexivity.
Qed.

(** The run of [searchMedicineHandler] on a text message, in terms of
    the run of [searchMedicines]. *)
Lemma searchMedicineHandler_run g update message rt :
  Update.Message update = Some message ->
  searchMedicineHandler g update rt =
  match searchMedicines g (Message.Text message) rt with
  | (Ret (medicines, err), trace) =>
      (Ret tt,
       trace ++
       [SendMessage
          (if notnil err || (length medicines =? 0)%nat
           then {| SendMessageParams.ChatID := Chat.ID (Message.Chat message);
                   SendMessageParams.Text := "Мне не удалось ничего найти.";
                   SendMessageParams.ReplyMarkup := None |}
           else {| SendMessageParams.ChatID := Chat.ID (Message.Chat message);
                   SendMessageParams.Text :=
                     "Вот что я нашел. Выберите лекарство, для которого нужно найти аналоги.";
                   SendMessageParams.ReplyMarkup :=
                     Some {| InlineKeyboardMarkup.InlineKeyboard :=
                               medicineButtons 0 medicines [] |} |})])
  | (Panic msg, trace) => (Panic msg, trace)
  end.
Proof.
  intros Hmsg. unfold searchMedicineHandler. rewrite Hmsg.
  unfold mbind, IO_bind, bind.
  destruct (searchMedicines g (Message.Text message) rt) as [[[medicines err]|msg] trace];
    [|reflexivity].
  destruct (notnil err || (length medicines =? 0)%nat); reflexivity.
Qed.

Lemma sent_app t1 t2 : sent (t1 ++ t2) = sent t1 ++ sent t2.
Proof. unfold sent. apply omap_app. Qed.

Lemma requests_app t1 t2 : requests (t1 ++ t2) = requests t1 ++ requests t2.
Proof. unfold requests. apply omap_app. Qed.

Lemma chat_app t1 t2 : chat (t1 ++ t2) = chat t1 ++ chat t2.
Proof. unfold chat. apply List.filter_app. Qed.

Lemma searchMedicineHandler_requests g update message rt :
  Update.Message update = Some message ->
  requests (searchMedicineHandler g update rt).2
  = [medicineRequest g (Message.Text message)].
Proof.
  intros Hmsg. rewrite (searchMedicineHandler_run _ _ _ _ Hmsg).
  pose proof (searchMedicines_requests g (Message.Text message) rt) as Hreq.
  destruct (searchMedicines g (Message.Text message) rt) as [[[medicines err]|msg] trace];
    simpl in *; [|assumption].
  rewrite requests_app, Hreq. reflexivity.
Qed.

(** What the API answered to the request of a medicine search. *)
Lemma medicine_answer g update message rt answer :
  Update.Message update = Some message ->
  client_Do rt <$> requests (searchMedicineHandler g update rt).2 = [answer] ->
  client_Do rt (medicineRequest g (Message.Text message)) = answer.
Proof.
  intros Hmsg Hans. rewrite (searchMedicineHandler_requests _ _ _ _ Hmsg) in Hans.
  simpl in Hans. congruence.
Qed.

(** ** Medicine search *)

(** C3: when the search response decodes without error to a list of
    N > 0 medicines, the handler sends one message whose keyboard has
    min(N, 10) rows, and row i is the single button of the i-th medicine
    of the response, with callback payload "search_analog:" followed by
    that medicine's id. *)
Theorem medicine_buttons_rendered g rt update message response medicines :
  Update.Message update = Some message ->
  client_Do rt <$> requests (searchMedicineHandler g update rt).2 = [inl response] ->
  Decode_SearchMedicineResponse rt (Response.Body response)
    = (SearchMedicineResponse.mk medicines, None) ->
  0 < length medicines ->
  exists buttons,
    chat (searchMedicineHandler g update rt).2
    = [ SendMessage
          {| SendMessageParams.ChatID := Chat.ID (Message.Chat message);
             SendMessageParams.Text :=
               "Вот что я нашел. Выберите лекарство, для которого нужно найти аналоги.";
             SendMessageParams.ReplyMarkup :=
               Some {| InlineKeyboardMarkup.InlineKeyboard := buttons |} |} ]
    /\ length buttons = length medicines `min` 10
    /\ forall i medicine,
         i < 10 -> medicines !! i = Some medicine ->
         buttons !! i
         = Some [ {| InlineKeyboardButton.Text := Medicine.Name medicine;
                     InlineKeyboardButton.URL := "";
                     InlineKeyboardButton.CallbackData :=
                       "search_analog:" +:+ Medicine.ID medicine |} ].
Proof.
  intros Hmsg Hans Hdec Hlen.
  apply (medicine_answer _ _ _ _ _ Hmsg) in Hans.
  exists (medicineButtons 0 medicines []). split; [|split].
  - rewrite (searchMedicineHandler_run _ _ _ _ Hmsg), searchMedicines_run, Hans, Hdec.
    simpl. destruct medicines; [simpl in Hlen; lia|reflexivity].
  - apply medicineButtons_length.
  - intros i medicine Hi Hm. by rewrite (medicineButtons_lookup _ _ _ Hi Hm).
Qed.

(** The query "aspirin" with twelve medicines in the response: ten
    buttons. *)
Lemma medicine_buttons_rendered_witness :
  exists buttons,
    chat (searchMedicineHandler g0 (text_update "aspirin") rt_twelve).2
    = [ SendMessage
          {| SendMessageParams.ChatID := 1001;
             SendMessageParams.Text :=
               "Вот что я нашел. Выберите лекарство, для которого нужно найти аналоги.";
             SendMessageParams.ReplyMarkup :=
               Some {| InlineKeyboardMarkup.InlineKeyboard := buttons |} |} ]
    /\ length buttons = 10
    /\ forall i medicine,
         i < 10 -> twelve_medicines !! i = Some medicine ->
         buttons !! i
         = Some [ {| InlineKeyboardButton.Text := Medicine.Name medicine;
                     InlineKeyboardButton.URL := "";
                     InlineKeyboardButton.CallbackData :=
                       "search_analog:" +:+ Medicine.ID medicine |} ].
Proof.
  apply (medicine_buttons_rendered g0 rt_twelve (text_update "aspirin")
           (Message.mk (Chat.mk 1001) "aspirin") (Response.mk "{...}") twelve_medicines).
  - reflexivity.
  - reflexivity.
  - reflexivity.
  - vm_compute. lia.
Defined.

(** C4: a transport error, a decode error and an empty list of medicines
    all end in the same single message, the fixed text with no keyboard. *)
Theorem nothing_found_message g rt update message :
  Update.Message update = Some message ->
  (exists err,
     client_Do rt <$> requests (searchMedicineHandler g update rt).2 = [inr err])
  \/ (exists response decoded err,
        client_Do rt <$> requests (searchMedicineHandler g update rt).2 = [inl response]
        /\ Decode_SearchMedicineResponse rt (Response.Body response) = (decoded, Some err))
  \/ (exists response,
        client_Do rt <$> requests (searchMedicineHandler g update rt).2 = [inl response]
        /\ Decode_SearchMedicineResponse rt (Response.Body response)
           = (SearchMedicineResponse.mk [], None)) ->
  chat (searchMedicineHandler g update rt).2
  = [ SendMessage
        {| SendMessageParams.ChatID := Chat.ID (Message.Chat message);
           SendMessageParams.Text := "Мне не удалось ничего найти.";
           SendMessageParams.ReplyMarkup := None |} ].
Proof.
  intros Hmsg Hcase.
  rewrite (searchMedicineHandler_run _ _ _ _ Hmsg), searchMedicines_run.
  destruct Hcase as [[err Hans]|[(response & decoded & err & Hans & Hdec)|(response & Hans & Hdec)]];
    apply (medicine_answer _ _ _ _ _ Hmsg) in Hans; rewrite Hans; [|rewrite Hdec..];
    reflexivity.
Qed.

(** The API cannot be reached. *)
Lemma nothing_found_message_witness :
  chat (searchMedicineHandler g0 (text_update "aspirin")
          (fixed_runtime (inr (OtherError "dial tcp: timeout"))
             (no_medicines, None) (no_analogs, None))).2
  = [ SendMessage
        {| SendMessageParams.ChatID := 1001;
           SendMessageParams.Text := "Мне не удалось ничего найти.";
           SendMessageParams.ReplyMarkup := None |} ].
Proof.
  apply (nothing_found_message g0 _ (text_update "aspirin")
           (Message.mk (Chat.mk 1001) "aspirin")).
  - reflexivity.
  - left. exists (OtherError "dial tcp: timeout"). reflexivity.
Defined.

(** ** Analog search *)

(** C1: when decoding the response fails, [searchAnalogs] returns the
    analogs decoded so far, the [home_country] info of the partly decoded
    response (and not its [medicine_info]), and the decoder's error. *)
Theorem searchAnalogs_decode_failure g medicineID rt response decoded err :
  client_Do rt <$> requests (searchAnalogs g medicineID rt).2 = [inl response] ->
  Decode_SearchAnalogResponse rt (Response.Body response) = (decoded, Some err) ->
  (searchAnalogs g medicineID rt).1
  = Ret (SearchAnalogResponse.Analogs decoded,
         SearchAnalogResponse.HomeCountry decoded, Some err).
Proof.
  intros Hans Hdec. rewrite searchAnalogs_requests in Hans. simpl in Hans.
  rewrite searchAnalogs_run.
  destruct (client_Do rt _) as [response'|err']; [|discriminate].
  injection Hans as ->. by rewrite Hdec.
Qed.

(** A response whose two infos differ and whose decoding fails in the
    second analog. *)
Lemma searchAnalogs_decode_failure_witness :
  (searchAnalogs g0 42 rt_decode_failure).1 = Ret ([analog 1], home_info, Some type_error)
  /\ home_info <> aspirin_info.
Proof.
  split.
  - apply (searchAnalogs_decode_failure g0 42 rt_decode_failure (Response.mk "{...}")
             (SearchAnalogResponse.mk aspirin_info home_info [analog 1]) type_error).
    + reflexivity.
    + reflexivity.
  - discriminate.
Defined.

Lemma searcheAnalogHandler_run g update cq rt :
  Update.CallbackQuery update = Some cq ->
  searcheAnalogHandler g update rt =
  let answer :=
    AnswerCallbackQuery
      {| AnswerCallbackQueryParams.CallbackQueryID := CallbackQuery.ID cq;
         AnswerCallbackQueryParams.ShowAlert := false |} in
  match Strings.Split (CallbackQuery.Data cq) ":" !! 1 with
  | None => (Panic "index out of range", [answer])
  | Some field =>
      match searchAnalogs g (Strconv.Atoi field).1 rt with
      | (Ret (analogs, medicineInfo, err), trace) =>
          match CallbackQuery.Message cq with
          | None =>
              (Panic "invalid memory address or nil pointer dereference", answer :: trace)
          | Some message =>
              (Ret tt,
               answer :: trace ++
               [SendMessage
                  (if notnil err || (length analogs =? 0)%nat
                   then {| SendMessageParams.ChatID := Chat.ID (Message.Chat message);
                           SendMessageParams.Text :=
                             "Мне не удалось найти аналоги для " +:+ dquote
                             +:+ MedicineInfo.MedicineName medicineInfo +:+ dquote +:+ ".";
                           SendMessageParams.ReplyMarkup := None |}
                   else {| SendMessageParams.ChatID := Chat.ID (Message.Chat message);
                           SendMessageParams.Text :=
                             "Вот аналоги для " +:+ dquote
                             +:+ MedicineInfo.MedicineName medicineInfo +:+ dquote +:+ ":";
                           SendMessageParams.ReplyMarkup :=
                             Some {| InlineKeyboardMarkup.InlineKeyboard :=
                                       analogButtons 0 analogs [] |} |})])
          end
      | (Panic msg, trace) => (Panic msg, answer :: trace)
      end
  end.
Proof.
  intros Hcq. unfold searcheAnalogHandler, callbackID, index. rewrite Hcq.
  unfold mbind, IO_bind, bind, deref, ret, panic, b_AnswerCallbackQuery,
    b_SendMessage, emit. simpl.
  destruct (Strings.Split (CallbackQuery.Data cq) ":" !! 1) as [field|]; [|reflexivity].
  simpl.
  destruct (searchAnalogs g (Strconv.Atoi field).1 rt)
    as [[[[analogs medicineInfo] err]|msg] trace]; [|reflexivity].
  destruct (notnil err || (length analogs =? 0)%nat);
    destruct (CallbackQuery.Message cq) as [message|]; simpl;
    rewrite ?app_nil_r; reflexivity.
Qed.

(** If a request of the analog handler was answered, the payload had an
    id part and the request was the analog request for it. *)
Lemma analog_answer g update cq rt answer :
  Update.CallbackQuery update = Some cq ->
  client_Do rt <$> requests (searcheAnalogHandler g update rt).2 = [answer] ->
  exists field,
    Strings.Split (CallbackQuery.Data cq) ":" !! 1 = Some field
    /\ client_Do rt (analogRequest g (Strconv.Atoi field).1) = answer.
Proof.
  intros Hcq Hans. rewrite (searcheAnalogHandler_run _ _ _ _ Hcq) in Hans.
  destruct (Strings.Split (CallbackQuery.Data cq) ":" !! 1) as [field|]; [|discriminate].
  exists field. split; [reflexivity|].
  pose proof (searchAnalogs_requests g (Strconv.Atoi field).1 rt) as Hreq.
  destruct (searchAnalogs g (Strconv.Atoi field).1 rt)
    as [[[[analogs medicineInfo] err]|msg] trace]; simpl in *.
  - destruct (CallbackQuery.Message cq); simpl in Hans;
      rewrite ?requests_app, Hreq in Hans; simpl in Hans; congruence.
  - rewrite Hreq in Hans. simpl in Hans. congruence.
Qed.

(** C5: when the analog response decodes without error to M > 0 analogs,
    the handler sends one message whose keyboard has min(M, 10) rows, in
    the order of the response; row i is one button labelled with the
    analog's name, a space and the percentage in parentheses, which opens
    the fixed base path followed by the analog's slug and carries no
    callback payload. *)
Theorem analog_buttons_rendered g rt update cq message response decoded :
  Update.CallbackQuery update = Some cq ->
  CallbackQuery.Message cq = Some message ->
  client_Do rt <$> requests (searcheAnalogHandler g update rt).2 = [inl response] ->
  Decode_SearchAnalogResponse rt (Response.Body response) = (decoded, None) ->
  0 < length (SearchAnalogResponse.Analogs decoded) ->
  exists buttons,
    chat (searcheAnalogHandler g update rt).2
    = [ AnswerCallbackQuery
          {| AnswerCallbackQueryParams.CallbackQueryID := CallbackQuery.ID cq;
             AnswerCallbackQueryParams.ShowAlert := false |};
        SendMessage
          {| SendMessageParams.ChatID := Chat.ID (Message.Chat message);
             SendMessageParams.Text :=
               "Вот аналоги для " +:+ dquote
               +:+ MedicineInfo.MedicineName (SearchAnalogResponse.MedicineInfo decoded)
               +:+ dquote +:+ ":";
             SendMessageParams.ReplyMarkup :=
               Some {| InlineKeyboardMarkup.InlineKeyboard := buttons |} |} ]
    /\ length buttons = length (SearchAnalogResponse.Analogs decoded) `min` 10
    /\ forall i analog,
         i < 10 -> SearchAnalogResponse.Analogs decoded !! i = Some analog ->
         buttons !! i
         = Some [ {| InlineKeyboardButton.Text :=
                       Analog.AnalogName analog +:+ " ("
                       +:+ Strconv.Itoa (Analog.Percentage analog) +:+ "%)";
                     InlineKeyboardButton.URL :=
                       "https://pillintrip.com/ru/medicine/" +:+ Analog.AnalogSlug analog;
                     InlineKeyboardButton.CallbackData := "" |} ].
Proof.
  intros Hcq Hmsg Hans Hdec Hlen.
  destruct (analog_answer _ _ _ _ _ Hcq Hans) as (field & Hfield & Hdo).
  exists (analogButtons 0 (SearchAnalogResponse.Analogs decoded) []). split; [|split].
  - rewrite (searcheAnalogHandler_run _ _ _ _ Hcq), Hfield, searchAnalogs_run, Hdo, Hdec, Hmsg.
    simpl. destruct (SearchAnalogResponse.Analogs decoded); [simpl in Hlen; lia|reflexivity].
  - apply analogButtons_length.
  - intros i analog Hi Ha. by rewrite (analogButtons_lookup _ _ _ Hi Ha).
Qed.

(** Twelve analogs of medicine 42: ten buttons. *)
Lemma analog_buttons_rendered_witness :
  exists buttons,
    chat (searcheAnalogHandler g0 (callback_update "search_analog:42") rt_twelve_analogs).2
    = [ AnswerCallbackQuery
          {| AnswerCallbackQueryParams.CallbackQueryID := "cb1";
             AnswerCallbackQueryParams.ShowAlert := false |};
        SendMessage
          {| SendMessageParams.ChatID := 1001;
             SendMessageParams.Text := "Вот аналоги для " +:+ dquote +:+ "Aspirin" +:+ dquote +:+ ":";
             SendMessageParams.ReplyMarkup :=
               Some {| InlineKeyboardMarkup.InlineKeyboard := buttons |} |} ]
    /\ length buttons = 10
    /\ forall i analog,
         i < 10 -> twelve_analogs !! i = Some analog ->
         buttons !! i
         = Some [ {| InlineKeyboardButton.Text :=
                       Analog.AnalogName analog +:+ " ("
                       +:+ Strconv.Itoa (Analog.Percentage analog) +:+ "%)";
                     InlineKeyboardButton.URL :=
                       "https://pillintrip.com/ru/medicine/" +:+ Analog.AnalogSlug analog;
                     InlineKeyboardButton.CallbackData := "" |} ].
Proof.
  apply (analog_buttons_rendered g0 rt_twelve_analogs (callback_update "search_analog:42")
           (CallbackQuery.mk "cb1" (Some chat1) "search_analog:42") chat1
           (Response.mk "{...}")
           (SearchAnalogResponse.mk aspirin_info home_info twelve_analogs)).
  - reflexivity.
  - reflexivity.
  - reflexivity.
  - reflexivity.
  - vm_compute. lia.
Defined.

(** C6: an analog search that ends in a transport error, in a decode
    error, or in an empty list of analogs is reported by one message with
    no keyboard, whose text quotes the name of the info the search
    returned: empty when the request failed, the name decoded under
    [home_country] when decoding failed, the name under [medicine_info]
    when the list is empty. *)
Theorem no_analogs_message g rt update cq message name :
  Update.CallbackQuery update = Some cq ->
  CallbackQuery.Message cq = Some message ->
  (exists err,
     client_Do rt <$> requests (searcheAnalogHandler g update rt).2 = [inr err]
     /\ name = "")
  \/ (exists response decoded err,
        client_Do rt <$> requests (searcheAnalogHandler g update rt).2 = [inl response]
        /\ Decode_SearchAnalogResponse rt (Response.Body response) = (decoded, Some err)
        /\ name = MedicineInfo.MedicineName (SearchAnalogResponse.HomeCountry decoded))
  \/ (exists response decoded,
        client_Do rt <$> requests (searcheAnalogHandler g update rt).2 = [inl response]
        /\ Decode_SearchAnalogResponse rt (Response.Body response) = (decoded, None)
        /\ SearchAnalogResponse.Analogs decoded = []
        /\ name = MedicineInfo.MedicineName (SearchAnalogResponse.MedicineInfo decoded)) ->
  chat (searcheAnalogHandler g update rt).2
  = [ AnswerCallbackQuery
        {| AnswerCallbackQueryParams.CallbackQueryID := CallbackQuery.ID cq;
           AnswerCallbackQueryParams.ShowAlert := false |};
      SendMessage
        {| SendMessageParams.ChatID := Chat.ID (Message.Chat message);
           SendMessageParams.Text :=
             "Мне не удалось найти аналоги для " +:+ dquote +:+ name +:+ dquote +:+ ".";
           SendMessageParams.ReplyMarkup := None |} ].
Proof.
  intros Hcq Hmsg Hcase.
  destruct Hcase as [(err & Hans & ->)
                    |[(response & decoded & err & Hans & Hdec & ->)
                     |(response & decoded & Hans & Hdec & Hnil & ->)]];
    destruct (analog_answer _ _ _ _ _ Hcq Hans) as (field & Hfield & Hdo);
    rewrite (searcheAnalogHandler_run _ _ _ _ Hcq), Hfield, searchAnalogs_run, Hdo, ?Hdec, Hmsg;
    simpl; rewrite ?Hnil; reflexivity.
Qed.

(** Medicine 42 is known as "Aspirin" and has no analogs. *)
Lemma no_analogs_message_witness :
  chat (searcheAnalogHandler g0 (callback_update "search_analog:42") rt_aspirin_alone).2
  = [ AnswerCallbackQuery
        {| AnswerCallbackQueryParams.CallbackQueryID := "cb1";
           AnswerCallbackQueryParams.ShowAlert := false |};
      SendMessage
        {| SendMessageParams.ChatID := 1001;
           SendMessageParams.Text :=
             "Мне не удалось найти аналоги для " +:+ dquote +:+ "Aspirin" +:+ dquote +:+ ".";
           SendMessageParams.ReplyMarkup := None |} ].
Proof.
  apply (no_analogs_message g0 rt_aspirin_alone (callback_update "search_analog:42")
           (CallbackQuery.mk "cb1" (Some chat1) "search_analog:42") chat1 "Aspirin").
  - reflexivity.
  - reflexivity.
  - right. right.
    exists (Response.mk "{...}"), (SearchAnalogResponse.mk aspirin_info MedicineInfo.zero []).
    repeat split; reflexivity.
Defined.

(** ** The request envelopes *)

Lemma appendString_valid src : forall pending,
  Utf8.valid_from pending src = true -> appendString pending src = src.
Proof.
  induction src as [|b rest IH]; intros pending; [reflexivity|].
  cbn [appendString Utf8.valid_from].
  destruct pending as [|k].
  - destruct (Utf8.rune_size (String b rest)) as [[|k]|]; try discriminate.
    intros Hvalid. by rewrite IH.
  - intros Hvalid. by rewrite IH.
Qed.

(** A string that is valid UTF-8 is written as it is. *)
Lemma json_string_valid src :
  Utf8.ValidString src = true -> json_string src = src.
Proof. apply appendString_valid. Qed.

Example json_string_examples :
  json_string "aspirin" = "aspirin"
  /\ json_string "аспирин <b>&</b>" = "аспирин <b>&</b>"
  /\ Utf8.ValidString bad_query = false
  /\ json_string bad_query = "asp" +:+ Utf8.RuneError +:+ "irin"
  /\ json_string (String "237" (String "160" (String "128" "")))
     = Utf8.RuneError +:+ Utf8.RuneError +:+ Utf8.RuneError
  /\ json_string Utf8.RuneError = Utf8.RuneError.
Proof. repeat split; vm_compute; reflexivity. Qed.




(** C8: the body of the request of an analog search holds the medicine
    id under [medicine], the configured home-country and target-country
    ids, "ru" under [language], the configured API key (as
    [encoding/json] writes a string: the key itself when it is valid
    UTF-8) and "main_search" under [state]; the country ids and the
    language are the same for any two requests of the process. *)
Theorem analog_request_body g rt medicineID :
  Request.Body <$> requests (searchAnalogs g medicineID rt).2
  = [ JObject [ ("api_key", JString (json_string (ApiKey g)));
                ("state", JString "main_search");
                ("home_country", JNumber (HoumeCountryID g));
                ("target_country", JNumber (TargetCountryID g));
                ("language", JString "ru");
                ("medicine", JNumber medicineID) ] ]
  /\ (Utf8.ValidString (ApiKey g) = true ->
      Request.Body <$> requests (searchAnalogs g medicineID rt).2
      = [ JObject [ ("api_key", JString (ApiKey g));
                    ("state", JString "main_search");
                    ("home_country", JNumber (HoumeCountryID g));
                    ("target_country", JNumber (TargetCountryID g));
                    ("language", JString "ru");
                    ("medicine", JNumber medicineID) ] ])
  /\ forall rt' medicineID',
       request_members "home_country" (searchAnalogs g medicineID' rt').2
       = request_members "home_country" (searchAnalogs g medicineID rt).2
       /\ request_members "target_country" (searchAnalogs g medicineID' rt').2
          = request_members "target_country" (searchAnalogs g medicineID rt).2
       /\ request_members "language" (searchAnalogs g medicineID' rt').2
          = request_members "language" (searchAnalogs g medicineID rt).2.
Proof.
  split; [|split].
  - by rewrite searchAnalogs_requests.
  - intros Hkey. rewrite searchAnalogs_requests. simpl.
    by rewrite (json_string_valid _ Hkey).
  - intros rt' medicineID'. unfold request_members.
    by rewrite !searchAnalogs_requests.
Qed.

(** The request for the analogs of medicine 42 under the key "k3y". *)
Lemma analog_request_body_witness :
  Request.Body <$> requests (searchAnalogs g0 42 rt_twelve_analogs).2
  = [ JObject [ ("api_key", JString "k3y");
                ("state", JString "main_search");
                ("home_country", JNumber 12);
                ("target_country", JNumber 7);
                ("language", JString "ru");
                ("medicine", JNumber 42) ] ].
Proof.
  apply (proj1 (proj2 (analog_request_body g0 rt_twelve_analogs 42))).
  reflexivity.
Defined.

(** ** The callback payload *)

Lemma Split_nonempty s sep : exists piece pieces, Strings.Split s sep = piece :: pieces.
Proof.
  induction s as [|c s IH]; simpl; [eauto|].
  destruct (Ascii.eqb c sep); [eauto|].
  destruct IH as (piece & pieces & ->). eauto.
Qed.

(** As in the library, the number of pieces is the number of separators
    plus one. *)
Lemma Split_length s sep :
  length (Strings.Split s sep) = S (Strings.Count s sep).
Proof.
  induction s as [|c s IH]; simpl; [reflexivity|].
  destruct (Ascii.eqb c sep); simpl; [by rewrite IH|].
  destruct (Split_nonempty s sep) as (piece & pieces & Hsplit).
  rewrite Hsplit in *. simpl in *. exact IH.
Qed.

(** The index expression of the handlers is in bounds exactly on the
    payloads that contain a colon. *)
Lemma id_part_in_bounds data :
  is_Some (Strings.Split data ":" !! 1) <-> 0 < Strings.Count data ":".
Proof.
  rewrite lookup_lt_is_Some, Split_length. lia.
Qed.

(** The payloads of the bot's own buttons have an id part. *)
Lemma own_payload_has_id id :
  is_Some (Strings.Split ("search_analog:" +:+ id) ":" !! 1).
Proof.
  destruct (Split_nonempty id ":") as (piece & pieces & Hsplit).
  change ("search_analog:" +:+ id) with (String.append "search_analog" (String ":" id)).
  simpl. rewrite Hsplit. simpl. eauto.
Qed.

(** C10 fails on the code: the payload "search_analog" passes the prefix
    match of the analog handler, splits into one piece, and the handler
    panics on the index expression after it has answered the query; the
    same holds for "show_medicine". *)
Theorem payload_without_colon_panics g rt :
  handler_match
    (mkHandler HandlerTypeCallbackQueryData MatchTypePrefix "search_analog"
               searcheAnalogHandler)
    (callback_update "search_analog") = true
  /\ length (Strings.Split "search_analog" ":") = 1
  /\ ProcessUpdate g (callback_update "search_analog") rt
     = (Panic "index out of range",
        [AnswerCallbackQuery (AnswerCallbackQueryParams.mk "cb1" false)])
  /\ ProcessUpdate g (callback_update "show_medicine") rt
     = (Panic "index out of range",
        [AnswerCallbackQuery (AnswerCallbackQueryParams.mk "cb1" false)]).
Proof. repeat split. Qed.

(** ** The API key and the chat *)

Lemma chat_observable trace : chat (observable trace) = chat trace.
Proof.
  induction trace as [|e trace IH]; [reflexivity|].
  destruct e; simpl; rewrite ?IH; reflexivity.
Qed.

Lemma searcheAnalogHandler_requests g update cq rt :
  Update.CallbackQuery update = Some cq ->
  requests (searcheAnalogHandler g update rt).2
  = match Strings.Split (CallbackQuery.Data cq) ":" !! 1 with
    | Some field => [analogRequest g (Strconv.Atoi field).1]
    | None => []
    end.
Proof.
  intros Hcq. rewrite (searcheAnalogHandler_run _ _ _ _ Hcq).
  destruct (Strings.Split (CallbackQuery.Data cq) ":" !! 1) as [field|]; [|reflexivity].
  pose proof (searchAnalogs_requests g (Strconv.Atoi field).1 rt) as Hreq.
  destruct (searchAnalogs g (Strconv.Atoi field).1 rt)
    as [[[[analogs medicineInfo] err]|msg] trace]; simpl in *.
  - destruct (CallbackQuery.Message cq); simpl; rewrite ?requests_app, Hreq; reflexivity.
  - by rewrite Hreq.
Qed.

(** Two runs of the medicine handler, under any two settings of the
    globals, that get the same answers behave the same. *)
Lemma searchMedicineHandler_independent g1 g2 rt1 rt2 update :
  (forall body, Decode_SearchMedicineResponse rt1 body = Decode_SearchMedicineResponse rt2 body) ->
  client_Do rt1 <$> requests (searchMedicineHandler g1 update rt1).2
  = client_Do rt2 <$> requests (searchMedicineHandler g2 update rt2).2 ->
  (searchMedicineHandler g1 update rt1).1 = (searchMedicineHandler g2 update rt2).1
  /\ observable (searchMedicineHandler g1 update rt1).2
     = observable (searchMedicineHandler g2 update rt2).2.
Proof.
  intros Hdec Hans.
  destruct (Update.Message update) as [message|] eqn:Hmsg.
  - rewrite !(searchMedicineHandler_requests _ _ _ _ Hmsg) in Hans.
    injection Hans as Hdo.
    rewrite !(searchMedicineHandler_run _ _ _ _ Hmsg), !searchMedicines_run, Hdo.
    destruct (client_Do rt2 _) as [response|err]; [|split; reflexivity].
    rewrite Hdec.
    destruct (Decode_SearchMedicineResponse rt2 _) as [decoded [err|]]; split; reflexivity.
  - unfold searchMedicineHandler. rewrite Hmsg. split; reflexivity.
Qed.

Lemma searcheAnalogHandler_independent g1 g2 rt1 rt2 update :
  (forall body, Decode_SearchAnalogResponse rt1 body = Decode_SearchAnalogResponse rt2 body) ->
  client_Do rt1 <$> requests (searcheAnalogHandler g1 update rt1).2
  = client_Do rt2 <$> requests (searcheAnalogHandler g2 update rt2).2 ->
  (searcheAnalogHandler g1 update rt1).1 = (searcheAnalogHandler g2 update rt2).1
  /\ observable (searcheAnalogHandler g1 update rt1).2
     = observable (searcheAnalogHandler g2 update rt2).2.
Proof.
  intros Hdec Hans.
  destruct (Update.CallbackQuery update) as [cq|] eqn:Hcq.
  - rewrite !(searcheAnalogHandler_requests _ _ _ _ Hcq) in Hans.
    rewrite !(searcheAnalogHandler_run _ _ _ _ Hcq).
    destruct (Strings.Split (CallbackQuery.Data cq) ":" !! 1) as [field|];
      [|split; reflexivity].
    injection Hans as Hdo. rewrite !searchAnalogs_run, Hdo.
    destruct (client_Do rt2 _) as [response|err].
    + rewrite Hdec.
      destruct (Decode_SearchAnalogResponse rt2 _) as [decoded [err|]];
        destruct (CallbackQuery.Message cq); split; reflexivity.
    + destruct (CallbackQuery.Message cq); split; reflexivity.
  - unfold searcheAnalogHandler. rewrite Hcq. split; reflexivity.
Qed.

(** The other two handlers read neither the globals nor the run-time. *)
Lemma showMedicineHandler_independent g1 g2 rt1 rt2 update :
  showMedicineHandler g1 update rt1 = showMedicineHandler g2 update rt2.
Proof.
  unfold showMedicineHandler, callbackID, index.
  destruct (Update.CallbackQuery update) as [cq|]; [|reflexivity].
  unfold mbind, IO_bind, bind; simpl.
  destruct (Strings.Split (CallbackQuery.Data cq) ":" !! 1); [|reflexivity].
  simpl. destruct (CallbackQuery.Message cq); reflexivity.
Qed.

Lemma startHandler_independent g1 g2 rt1 rt2 update :
  startHandler g1 update rt1 = startHandler g2 update rt2.
Proof.
  unfold startHandler. destruct (Update.Message update); reflexivity.
Qed.

Lemma findHandler_cases kind update :
  findHandler kind update = searcheAnalogHandler
  \/ findHandler kind update = showMedicineHandler
  \/ findHandler kind update = startHandler
  \/ findHandler kind update = searchMedicineHandler.
Proof.
  unfold findHandler.
  destruct (List.find _ handlers) as [h|] eqn:Hfind; [|auto].
  apply List.find_some in Hfind as [Hin _]. simpl in Hin.
  destruct Hin as [ <- | [ <- | [ <- | Hnone ] ] ]; [..|destruct Hnone]; simpl; auto.
Qed.

(** The handler an update is dispatched to depends on the update only. *)
Lemma ProcessUpdate_handler update :
  exists f,
    (f = searcheAnalogHandler \/ f = showMedicineHandler \/ f = startHandler
     \/ f = searchMedicineHandler)
    /\ forall g, ProcessUpdate g update = f g update.
Proof.
  unfold ProcessUpdate.
  destruct (Update.Message update) as [message|].
  - exists (findHandler HandlerTypeMessageText update).
    split; [apply findHandler_cases|reflexivity].
  - destruct (Update.CallbackQuery update) as [cq|].
    + exists (findHandler HandlerTypeCallbackQueryData update).
      split; [apply findHandler_cases|reflexivity].
    + exists searchMedicineHandler. split; [auto|reflexivity].
Qed.

(** C9, as amended: what a run sends to the chat (and what it logs, and
    whether it panics) is determined by the update and by the answers of
    the API.  Two runs on the same update under two different API keys
    that get the same answers send the same messages, labels, URLs and
    payloads: the key goes into the request bodies and nowhere else. *)
Theorem chat_independent_of_api_key g key' rt1 rt2 update :
  (forall body, Decode_SearchMedicineResponse rt1 body = Decode_SearchMedicineResponse rt2 body) ->
  (forall body, Decode_SearchAnalogResponse rt1 body = Decode_SearchAnalogResponse rt2 body) ->
  client_Do rt1 <$> requests (ProcessUpdate g update rt1).2
  = client_Do rt2 <$> requests (ProcessUpdate (with_key g key') update rt2).2 ->
  (ProcessUpdate g update rt1).1 = (ProcessUpdate (with_key g key') update rt2).1
  /\ chat (ProcessUpdate g update rt1).2
     = chat (ProcessUpdate (with_key g key') update rt2).2
  /\ observable (ProcessUpdate g update rt1).2
     = observable (ProcessUpdate (with_key g key') update rt2).2.
Proof.
  intros HdecM HdecA Hans.
  assert ((ProcessUpdate g update rt1).1 = (ProcessUpdate (with_key g key') update rt2).1
          /\ observable (ProcessUpdate g update rt1).2
             = observable (ProcessUpdate (with_key g key') update rt2).2) as [Hout Hobs].
  { destruct (ProcessUpdate_handler update) as (f & Hf & Heq).
    rewrite !Heq in *.
    destruct Hf as [ -> | [ -> | [ -> | -> ] ] ].
    - by apply searcheAnalogHandler_independent.
    - by rewrite (showMedicineHandler_independent g (with_key g key') rt1 rt2).
    - by rewrite (startHandler_independent g (with_key g key') rt1 rt2).
    - by apply searchMedicineHandler_independent. }
  split; [exact Hout|]. split; [|exact Hobs].
  by rewrite <- (chat_observable (ProcessUpdate g update rt1).2), Hobs, chat_observable.
Qed.

(** The same search under the keys "k3y" and "0ther". *)
Lemma chat_independent_of_api_key_witness :
  (ProcessUpdate g0 (text_update "aspirin") rt_twelve).1
  = (ProcessUpdate (with_key g0 "0ther") (text_update "aspirin") rt_twelve).1
  /\ chat (ProcessUpdate g0 (text_update "aspirin") rt_twelve).2
     = chat (ProcessUpdate (with_key g0 "0ther") (text_update "aspirin") rt_twelve).2
  /\ observable (ProcessUpdate g0 (text_update "aspirin") rt_twelve).2
     = observable (ProcessUpdate (with_key g0 "0ther") (text_update "aspirin") rt_twelve).2.
Proof.
  apply (chat_independent_of_api_key g0 "0ther" rt_twelve rt_twelve (text_update "aspirin")).
  - reflexivity.
  - reflexivity.
  - reflexivity.
Defined.

(** C9, as stated, fails: when the API lists a medicine whose name is
    the text of the key, the key is the label of a button sent to the
    chat. *)
Lemma api_key_reaches_chat :
  ~ (forall s,
       In s (chat_strings (ProcessUpdate g0 (text_update "aspirin") rt_echo).2) ->
       Strings.Contains s (ApiKey g0) = false).
Proof.
  intros H. specialize (H "k3y").
  assert (Hin : In "k3y" (chat_strings (ProcessUpdate g0 (text_update "aspirin") rt_echo).2)).
  { vm_compute. right. left. reflexivity. }
  specialize (H Hin). vm_compute in H. discriminate.
Qed.

(** * Further properties of the program *)

(** ** Conversions between ids and their decimal text *)

Lemma digit_char_spec d :
  (0 <= d < 10)%Z ->
  Strconv.is_digit (Strconv.digit_char d) = true
  /\ (Z.of_N (N_of_ascii (Strconv.digit_char d)) - 48)%Z = d
  /\ Ascii.eqb (Strconv.digit_char d) ":" = false.
Proof.
  intros Hd.
  assert (d = 0 \/ d = 1 \/ d = 2 \/ d = 3 \/ d = 4 \/ d = 5 \/ d = 6 \/ d = 7
          \/ d = 8 \/ d = 9)%Z as Hcases by lia.
  repeat (destruct Hcases as [->|Hcases]); try subst d; repeat split.
Qed.

Lemma is_digit_not_sign c :
  Strconv.is_digit c = true -> Ascii.eqb c "-" = false /\ Ascii.eqb c "+" = false.
Proof.
  destruct c as [[] [] [] [] [] [] [] []]; vm_compute; intros H; split;
    first [reflexivity | discriminate].
Qed.

Lemma is_digit_value ch :
  Strconv.is_digit ch = true -> (0 <= Z.of_N (N_of_ascii ch) - 48 <= 9)%Z.
Proof.
  unfold Strconv.is_digit. intros Hd. apply andb_prop in Hd as [Hlo Hhi].
  apply N.leb_le in Hlo, Hhi. lia.
Qed.

Lemma parse_uint_lower s : forall n m,
  Strconv.parse_uint s n = (m, None) -> (0 <= n)%Z -> (n <= m)%Z.
Proof.
  induction s as [|ch s IH]; simpl; intros n m Hp Hn.
  - injection Hp as <-. lia.
  - destruct (Strconv.is_digit ch) eqn:Hd; [|discriminate].
    apply is_digit_value in Hd.
    destruct (Strconv.maxUint64 / 10 + 1 <=? n)%Z; [discriminate|].
    destruct (Strconv.maxUint64 <? n * 10 + _)%Z; [discriminate|].
    apply IH in Hp; lia.
Qed.

(** A range error of the digit loop comes with [maxUint64]. *)
Lemma parse_uint_range s : forall n m,
  Strconv.parse_uint s n = (m, Some ErrRange) -> m = Strconv.maxUint64.
Proof.
  induction s as [|ch s IH]; simpl; intros n m Hp; [discriminate|].
  destruct (Strconv.is_digit ch); [|discriminate].
  destruct (Strconv.maxUint64 / 10 + 1 <=? n)%Z; [congruence|].
  destruct (Strconv.maxUint64 <? n * 10 + _)%Z; [congruence|].
  by apply IH in Hp.
Qed.

(** [Atoi] returns without error only values of [int]. *)
Lemma Atoi_is_int s n : Strconv.Atoi s = (n, None) -> is_int n.
Proof.
  unfold Strconv.Atoi, is_int.
  destruct s as [|c rest]; [discriminate|].
  destruct (if Ascii.eqb c "-" || Ascii.eqb c "+" then rest else String c rest)
    as [|c' body'] eqn:Hbody; [discriminate|].
  destruct (Strconv.parse_uint (String c' body') 0) as [un [[]|]] eqn:Hp;
    [discriminate| |].
  - apply parse_uint_range in Hp as ->.
    assert (Hle : (2 ^ 63 <=? Strconv.maxUint64)%Z = true) by reflexivity.
    assert (Hlt : (2 ^ 63 <? Strconv.maxUint64)%Z = true) by reflexivity.
    destruct (Ascii.eqb c "-"); cbn [negb andb]; rewrite ?Hle, ?Hlt; discriminate.
  - apply parse_uint_lower in Hp; [|lia].
    destruct (Ascii.eqb c "-"); simpl.
    + destruct (Z.ltb_spec (2 ^ 63) un); [discriminate|].
      intros [= <-]. lia.
    + destruct (Z.leb_spec (2 ^ 63) un); [discriminate|].
      intros [= <-]. lia.
Qed.

(** A syntax error of [Atoi] comes with the value 0. *)
Lemma Atoi_syntax_zero s v fn num :
  Strconv.Atoi s = (v, Some (NumError fn num ErrSyntax)) -> v = 0%Z.
Proof.
  unfold Strconv.Atoi, Strconv.syntaxError, Strconv.rangeError.
  destruct s as [|c rest]; [congruence|].
  destruct (if Ascii.eqb c "-" || Ascii.eqb c "+" then rest else String c rest)
    as [|c' body']; [congruence|].
  destruct (Strconv.parse_uint (String c' body') 0) as [un [[]|]]; [congruence| |];
    destruct (negb (Ascii.eqb c "-") && (2 ^ 63 <=? un)%Z); try congruence;
    destruct (Ascii.eqb c "-" && (2 ^ 63 <? un)%Z); congruence.
Qed.

(** A range error of [Atoi] comes with the nearest bound of [int]. *)
Lemma Atoi_range_bound s v fn num :
  Strconv.Atoi s = (v, Some (NumError fn num ErrRange)) ->
  v = (2 ^ 63 - 1)%Z \/ v = (- 2 ^ 63)%Z.
Proof.
  unfold Strconv.Atoi, Strconv.syntaxError, Strconv.rangeError.
  destruct s as [|c rest]; [congruence|].
  destruct (if Ascii.eqb c "-" || Ascii.eqb c "+" then rest else String c rest)
    as [|c' body']; [congruence|].
  destruct (Strconv.parse_uint (String c' body') 0) as [un [[]|]]; [congruence| |];
    destruct (negb (Ascii.eqb c "-") && (2 ^ 63 <=? un)%Z);
    try (intros [= <-]; by left);
    destruct (Ascii.eqb c "-" && (2 ^ 63 <? un)%Z);
    try (intros [= <-]; by right); congruence.
Qed.

Lemma format_digits_head fuel : forall u acc,
  exists c rest,
    Strconv.format_digits (S fuel) u acc = String c rest
    /\ Strconv.is_digit c = true.
Proof.
  induction fuel as [|fuel IH]; intros u acc.
  - exists (Strconv.digit_char (u mod 10)), acc. split.
    + simpl. by destruct (u <? 10)%Z.
    + apply digit_char_spec. apply Z.mod_pos_bound. lia.
  - change (Strconv.format_digits (S (S fuel)) u acc)
      with (if (u <? 10)%Z then String (Strconv.digit_char (u mod 10)) acc
            else Strconv.format_digits (S fuel) (u / 10)
                   (String (Strconv.digit_char (u mod 10)) acc)).
    destruct (u <? 10)%Z; [|apply IH].
    eexists _, _. split; [reflexivity|].
    apply digit_char_spec. apply Z.mod_pos_bound. lia.
Qed.

Lemma format_digits_no_colon fuel : forall u acc,
  Strings.Count (Strconv.format_digits fuel u acc) ":" = Strings.Count acc ":".
Proof.
  induction fuel as [|fuel IH]; intros u acc; [reflexivity|].
  simpl.
  assert (Hd : Ascii.eqb (Strconv.digit_char (u mod 10)) ":" = false)
    by (apply digit_char_spec; apply Z.mod_pos_bound; lia).
  destruct (u <? 10)%Z; [|rewrite IH]; simpl Strings.Count; by rewrite Hd.
Qed.

(** Reading back what [format_digits] wrote in front of [acc], as long
    as the value stays within [maxUint64]. *)
Lemma parse_format_digits fuel : forall u acc,
  (0 <= u < 10 ^ Z.of_nat fuel)%Z ->
  exists k : nat, forall n,
    (0 <= n)%Z ->
    (n * 10 ^ Z.of_nat k + u <= Strconv.maxUint64)%Z ->
    Strconv.parse_uint (Strconv.format_digits fuel u acc) n
    = Strconv.parse_uint acc (n * 10 ^ Z.of_nat k + u)%Z.
Proof.
  assert (Hdigit : forall d acc n,
             (0 <= d < 10)%Z -> (0 <= n)%Z ->
             (n * 10 + d <= Strconv.maxUint64)%Z ->
             Strconv.parse_uint (String (Strconv.digit_char d) acc) n
             = Strconv.parse_uint acc (n * 10 + d)%Z).
  { intros d acc n Hd Hn Hmax.
    destruct (digit_char_spec _ Hd) as (Hdig & Hval & _).
    simpl Strconv.parse_uint. rewrite Hdig, Hval.
    change Strconv.maxUint64 with 18446744073709551615%Z in *.
    change (18446744073709551615 / 10 + 1)%Z with 1844674407370955162%Z.
    destruct (Z.leb_spec 1844674407370955162 n); [lia|].
    destruct (Z.ltb_spec 18446744073709551615 (n * 10 + d)); [lia|].
    reflexivity. }
  induction fuel as [|fuel IH]; intros u acc Hu.
  - exists 0%nat. intros n _ _. simpl in *. f_equal. lia.
  - assert (Hmod : (0 <= u mod 10 < 10)%Z) by (apply Z.mod_pos_bound; lia).
    simpl Strconv.format_digits.
    destruct (Z.ltb_spec u 10) as [Hlt|Hge].
    + exists 1%nat. intros n Hn Hmax.
      rewrite Z.mod_small by lia.
      change (10 ^ Z.of_nat 1)%Z with 10%Z in *.
      by rewrite Hdigit by lia.
    + destruct (IH (u / 10)%Z (String (Strconv.digit_char (u mod 10)) acc)) as [k Hk].
      { rewrite Nat2Z.inj_succ, Z.pow_succ_r in Hu by lia.
        split; [apply Z.div_pos; lia|apply Z.div_lt_upper_bound; lia]. }
      exists (S k). intros n Hn Hmax.
      rewrite Nat2Z.inj_succ, Z.pow_succ_r in * by lia.
      pose proof (Z.div_mod u 10 ltac:(lia)) as Hdm.
      assert (Hpow : (0 < 10 ^ Z.of_nat k)%Z) by (apply Z.pow_pos_nonneg; lia).
      pose proof (Z.div_pos u 10 ltac:(lia) ltac:(lia)) as Hdiv.
      assert (Hprod : (0 <= n * 10 ^ Z.of_nat k)%Z) by (apply Z.mul_nonneg_nonneg; lia).
      rewrite Hk by lia. rewrite Hdigit by lia. f_equal. lia.
Qed.

(** The decimal text of an [int] converts back to it. *)
Lemma Atoi_Itoa n : is_int n -> Strconv.Atoi (Strconv.Itoa n) = (n, None).
Proof.
  unfold is_int, Strconv.Itoa. intros Hn.
  assert (Hmax : Strconv.maxUint64 = 18446744073709551615%Z) by reflexivity.
  destruct (Z.ltb_spec n 0) as [Hneg|Hpos].
  - destruct (format_digits_head 19 (- n) "") as (c & rest & Hfmt & Hdig).
    destruct (parse_format_digits 20 (- n) "") as [k Hk].
    { change (10 ^ Z.of_nat 20)%Z with 100000000000000000000%Z. lia. }
    specialize (Hk 0%Z ltac:(lia)). rewrite Z.mul_0_l, Z.add_0_l in Hk.
    specialize (Hk ltac:(lia)).
    rewrite Hfmt in *.
    unfold Strconv.Atoi. cbn [Ascii.eqb Bool.eqb orb].
    rewrite Hk. cbn [Strconv.parse_uint negb andb].
    destruct (Z.ltb_spec (2 ^ 63) (- n)); [lia|].
    f_equal. lia.
  - destruct (format_digits_head 19 n "") as (c & rest & Hfmt & Hdig).
    destruct (parse_format_digits 20 n "") as [k Hk].
    { change (10 ^ Z.of_nat 20)%Z with 100000000000000000000%Z. lia. }
    specialize (Hk 0%Z ltac:(lia)). rewrite Z.mul_0_l, Z.add_0_l in Hk.
    specialize (Hk ltac:(lia)).
    rewrite Hfmt in *.
    destruct (is_digit_not_sign c Hdig) as [Hminus Hplus].
    unfold Strconv.Atoi. rewrite Hminus, Hplus. cbn [orb negb andb].
    rewrite Hk. cbn [Strconv.parse_uint].
    destruct (Z.leb_spec (2 ^ 63) n); [lia|].
    reflexivity.
Qed.

Lemma Count_cons c s sep :
  Strings.Count (String c s) sep
  = (if Ascii.eqb c sep then 1 else 0) + Strings.Count s sep.
Proof. reflexivity. Qed.

Lemma Itoa_no_colon n : Strings.Count (Strconv.Itoa n) ":" = 0.
Proof.
  unfold Strconv.Itoa. destruct (n <? 0)%Z.
  - by rewrite Count_cons, format_digits_no_colon.
  - by rewrite format_digits_no_colon.
Qed.

Lemma Split_no_sep s sep : Strings.Count s sep = 0 -> Strings.Split s sep = [s].
Proof.
  induction s as [|c s IH]; [reflexivity|].
  rewrite Count_cons. simpl. destruct (Ascii.eqb c sep); [discriminate|].
  intros Hs. by rewrite IH.
Qed.

Lemma Split_prefix pre s sep :
  Strings.Count pre sep = 0 ->
  Strings.Split (pre +:+ String sep s) sep = pre :: Strings.Split s sep.
Proof.
  induction pre as [|c pre IH].
  - intros _. simpl. by rewrite Ascii.eqb_refl.
  - rewrite Count_cons. simpl. destruct (Ascii.eqb c sep); [discriminate|].
    intros Hpre. by rewrite IH.
Qed.

(** ** Dispatch *)

(** [ProcessUpdate], handler by handler. *)
Lemma ProcessUpdate_dispatch g update :
  ProcessUpdate g update =
  match Update.Message update with
  | Some message =>
      if String.eqb (Message.Text message) "/start"
      then startHandler g update
      else searchMedicineHandler g update
  | None =>
      match Update.CallbackQuery update with
      | Some cq =>
          if Strings.HasPrefix (CallbackQuery.Data cq) "search_analog"
          then searcheAnalogHandler g update
          else if Strings.HasPrefix (CallbackQuery.Data cq) "show_medicine"
          then showMedicineHandler g update
          else searchMedicineHandler g update
      | None => searchMedicineHandler g update
      end
  end.
Proof.
  unfold ProcessUpdate, findHandler, handlers, handler_match.
  destruct (Update.Message update) as [message|]; simpl.
  - by destruct (String.eqb (Message.Text message) "/start").
  - destruct (Update.CallbackQuery update) as [cq|]; simpl; [|reflexivity].
    destruct (Strings.HasPrefix (CallbackQuery.Data cq) "search_analog"); [reflexivity|].
    by destruct (Strings.HasPrefix (CallbackQuery.Data cq) "show_medicine").
Qed.

Lemma showMedicineHandler_run g update cq rt :
  Update.CallbackQuery update = Some cq ->
  showMedicineHandler g update rt =
  let answer :=
    AnswerCallbackQuery
      {| AnswerCallbackQueryParams.CallbackQueryID := CallbackQuery.ID cq;
         AnswerCallbackQueryParams.ShowAlert := false |} in
  match Strings.Split (CallbackQuery.Data cq) ":" !! 1 with
  | None => (Panic "index out of range", [answer])
  | Some field =>
      match CallbackQuery.Message cq with
      | None => (Panic "invalid memory address or nil pointer dereference", [answer])
      | Some message =>
          (Ret tt,
           [answer;
            SendMessage
              {| SendMessageParams.ChatID := Chat.ID (Message.Chat message);
                 SendMessageParams.Text :=
                   "Тут инфа по ценам для MedicineId="
                   +:+ Strconv.Itoa (Strconv.Atoi field).1;
                 SendMessageParams.ReplyMarkup := None |}])
      end
  end.
Proof.
  intros Hcq. unfold showMedicineHandler, callbackID, index. rewrite Hcq.
  unfold mbind, IO_bind, bind; simpl.
  destruct (Strings.Split (CallbackQuery.Data cq) ":" !! 1); [|reflexivity].
  simpl. destruct (CallbackQuery.Message cq); reflexivity.
Qed.

(** Case analysis on everything a run depends on. *)
Ltac split_run :=
  repeat match goal with
    | |- context [Strings.Split ?d ?sep !! 1] =>
        destruct (Strings.Split d sep !! 1) eqn:?
    | |- context [searchAnalogs ?g ?id ?rt] => rewrite (searchAnalogs_run g id rt)
    | |- context [searchMedicines ?g ?q ?rt] => rewrite (searchMedicines_run g q rt)
    | |- context [client_Do ?rt ?req] => destruct (client_Do rt req) eqn:?
    | |- context [Decode_SearchMedicineResponse ?rt ?b] =>
        destruct (Decode_SearchMedicineResponse rt b) as [? [?|]] eqn:?
    | |- context [Decode_SearchAnalogResponse ?rt ?b] =>
        destruct (Decode_SearchAnalogResponse rt b) as [? [?|]] eqn:?
    | |- context [CallbackQuery.Message ?cq] =>
        destruct (CallbackQuery.Message cq) eqn:?
    end.

(** The four handlers on an arbitrary update, each rewritten to the
    table of its runs. *)
Ltac every_handler g update rt :=
  rewrite ?(ProcessUpdate_dispatch g update);
  cbv zeta;
  repeat match goal with
    | |- context [Update.CallbackQuery update] =>
        destruct (Update.CallbackQuery update) as [?cq|] eqn:?Hcq
    | |- context [Update.Message update] =>
        destruct (Update.Message update) as [?message|] eqn:?Hmsg
    | |- context [Strings.HasPrefix ?d ?p] => destruct (Strings.HasPrefix d p) eqn:?
    | |- context [String.eqb ?a ?b] => destruct (String.eqb a b) eqn:?
    end;
  repeat match goal with
    | H : Update.CallbackQuery update = Some _ |- context [searcheAnalogHandler g update rt] =>
        rewrite (searcheAnalogHandler_run g update _ rt H), ?searchAnalogs_run
    | H : Update.CallbackQuery update = Some _ |- context [showMedicineHandler g update rt] =>
        rewrite (showMedicineHandler_run g update _ rt H)
    | H : Update.Message update = Some _ |- context [searchMedicineHandler g update rt] =>
        rewrite (searchMedicineHandler_run g update _ rt H), ?searchMedicines_run
    | H : Update.Message update = None |- context [searchMedicineHandler g update rt] =>
        unfold searchMedicineHandler; rewrite H
    | H : Update.Message update = Some _ |- context [startHandler g update rt] =>
        unfold startHandler; rewrite H
    end;
  cbv zeta; split_run.

(** ** What every run keeps *)

(** One update costs at most one request to the API and puts at most
    one message into the chat. *)
Theorem one_request_one_message g update rt :
  length (requests (ProcessUpdate g update rt).2) <= 1
  /\ length (sent (ProcessUpdate g update rt).2) <= 1.
Proof.
  every_handler g update rt; simpl; split; lia.
Qed.

(** Every request of the bot is a POST of JSON to the one endpoint and
    carries the API key (as [encoding/json] writes a string: the key
    itself when it is valid UTF-8), the mode tag and the home country of
    the process. *)
Theorem every_request_well_formed g update rt :
  Forall (fun req =>
            Request.Method req = "POST"
            /\ Request.URL req = "https://api.pillintrip.com/search"
            /\ Request.Header req = [("Content-Type", "application/json")]
            /\ member "api_key" (Request.Body req)
               = Some (JString (json_string (ApiKey g)))
            /\ (Utf8.ValidString (ApiKey g) = true ->
                member "api_key" (Request.Body req) = Some (JString (ApiKey g)))
            /\ member "state" (Request.Body req) = Some (JString "main_search")
            /\ member "home_country" (Request.Body req)
               = Some (JNumber (HoumeCountryID g)))
         (requests (ProcessUpdate g update rt).2).
Proof.
  every_handler g update rt; simpl;
    repeat first
      [ apply Forall_nil
      | apply Forall_cons
      | split
      | reflexivity
      | intros Hvalid; simpl; by rewrite (json_string_valid _ Hvalid) ].
Qed.

Lemma medicineButtons_rows medicines :
  Forall (fun row => length row = 1) (medicineButtons 0 medicines []).
Proof.
  rewrite medicineButtons_spec by lia. simpl.
  apply Forall_fmap, Forall_true. reflexivity.
Qed.

Lemma analogButtons_rows analogs :
  Forall (fun row => length row = 1) (analogButtons 0 analogs []).
Proof.
  rewrite analogButtons_spec by lia. simpl.
  apply Forall_fmap, Forall_true. reflexivity.
Qed.

(** A keyboard is never sent empty and never has more than ten rows,
    and each of its rows is a single button. *)
Theorem keyboard_shape g update rt :
  Forall (fun p =>
            match SendMessageParams.ReplyMarkup p with
            | None => True
            | Some markup =>
                1 <= length (InlineKeyboardMarkup.InlineKeyboard markup) <= 10
                /\ Forall (fun row => length row = 1)
                          (InlineKeyboardMarkup.InlineKeyboard markup)
            end)
         (sent (ProcessUpdate g update rt).2).
Proof.
  every_handler g update rt; simpl; repeat constructor;
    match goal with
    | |- context [(length ?l =? 0)%nat] =>
        destruct (Nat.eqb_spec (length l) 0) as [Hzero|Hpos]; simpl; [exact I|]
    end;
    (split; [|first [apply medicineButtons_rows | apply analogButtons_rows]]);
    rewrite ?medicineButtons_length, ?analogButtons_length; lia.
Qed.

Lemma id_part_None data :
  Strings.Split data ":" !! 1 = None <-> Strings.Count data ":" = 0.
Proof.
  rewrite lookup_ge_None, Split_length. lia.
Qed.

(** The bot panics on an update exactly when the update has no message
    and is a callback query for one of the two callback handlers whose
    payload has no colon or which carries no message.  An update with a
    message goes to the message handlers, whatever else it holds, and
    these do not panic. *)
Theorem panic_iff g update rt :
  (exists msg, (ProcessUpdate g update rt).1 = Panic msg) <->
  Update.Message update = None
  /\ exists cq,
    Update.CallbackQuery update = Some cq
    /\ (Strings.HasPrefix (CallbackQuery.Data cq) "search_analog" = true
        \/ Strings.HasPrefix (CallbackQuery.Data cq) "show_medicine" = true)
    /\ (Strings.Count (CallbackQuery.Data cq) ":" = 0
        \/ CallbackQuery.Message cq = None).
Proof.
  every_handler g update rt; simpl;
    repeat match goal with
      | H : Strings.Split _ ":" !! 1 = None |- _ => apply id_part_None in H
      | H : Strings.Split _ ":" !! 1 = Some _ |- _ =>
          apply mk_is_Some, id_part_in_bounds in H
      end;
    (split;
     [ intros [msg Hpanic];
       first [ discriminate
             | split; [reflexivity|]; eexists; split; [reflexivity|]; by auto ]
     | intros (Hnone & cq' & Heq & Hprefix & Hbad);
       first [ discriminate
             | injection Heq as <-;
               first [ by eauto | exfalso; intuition (congruence || lia) ] ] ]).
Qed.

(** The update "search_analog" panics and is of the shape the theorem
    names. *)
Lemma panic_iff_witness :
  exists msg, (ProcessUpdate g0 (callback_update "search_analog") rt_twelve).1 = Panic msg.
Proof.
  apply (proj2 (panic_iff g0 (callback_update "search_analog") rt_twelve)).
  split; [reflexivity|].
  exists (CallbackQuery.mk "cb1" (Some chat1) "search_analog").
  split; [reflexivity|]. split; [left; reflexivity|left; reflexivity].
Defined.

(** ** Start-up, in full *)

Lemma main_started_iff bot_New (environ : gmap string string) token g :
  main bot_New environ = Started token g <->
  token = Os.Getenv environ "BOT_TOKEN" /\ token <> ""
  /\ ApiKey g = Os.Getenv environ "API_KEY" /\ ApiKey g <> ""
  /\ country_id environ "HOME_COUNTRY_ID" = (HoumeCountryID g, None)
  /\ HoumeCountryID g <> 0%Z
  /\ country_id environ "TARGET_COUNTRY_ID" = (TargetCountryID g, None)
  /\ TargetCountryID g <> 0%Z
  /\ bot_New token = None.
Proof.
  split.
  - unfold main, country_id, log_Fatal.
    destruct (Os.Getenv environ "BOT_TOKEN") as [|c s] eqn:Etok; [discriminate|].
    destruct (Os.Getenv environ "API_KEY") as [|c' s'] eqn:Ekey; [discriminate|].
    simpl.
    destruct (Strconv.Atoi (Os.Getenv environ "HOME_COUNTRY_ID")) as [home [herr|]];
      simpl; [discriminate|].
    destruct (Z.eqb_spec home 0); [discriminate|].
    destruct (Strconv.Atoi (Os.Getenv environ "TARGET_COUNTRY_ID")) as [target [terr|]];
      simpl; [discriminate|].
    destruct (Z.eqb_spec target 0); [discriminate|].
    destruct (bot_New (String c s)) eqn:Enew; [discriminate|].
    intros [= <- <-]. simpl. repeat split; try done.
  - intros (-> & Htok & Hkey & Hkey' & Hhome & Hhome' & Htarget & Htarget' & Hnew).
    rewrite Hkey in Hkey'.
    rewrite (main_starts bot_New environ _ _ Htok Hkey' Hhome Hhome' Htarget Htarget' Hnew).
    destruct g as [key home target]. simpl in *. by rewrite Hkey.
Qed.

(** The bot is started exactly when [.env] loads and, in the
    environment completed from it, the token and the API key are not
    empty, both country ids convert without error to a value other than
    0, and the transport accepts the token; the globals are then these
    four values. *)
Theorem startup_started_iff bot_New dotenv (environ : gmap string string) token g :
  startup bot_New dotenv environ = Started token g <->
  exists vars,
    dotenv = Some vars
    /\ token = Os.Getenv (environ ∪ vars) "BOT_TOKEN" /\ token <> ""
    /\ ApiKey g = Os.Getenv (environ ∪ vars) "API_KEY" /\ ApiKey g <> ""
    /\ country_id (environ ∪ vars) "HOME_COUNTRY_ID" = (HoumeCountryID g, None)
    /\ HoumeCountryID g <> 0%Z
    /\ country_id (environ ∪ vars) "TARGET_COUNTRY_ID" = (TargetCountryID g, None)
    /\ TargetCountryID g <> 0%Z
    /\ bot_New token = None.
Proof.
  unfold startup, init, Godotenv.Load, log_Fatal.
  destruct dotenv as [vars|]; simpl.
  - rewrite main_started_iff. split.
    + intros H. exists vars. by split.
    + intros (vars' & [= <-] & H). exact H.
  - split; [discriminate|]. intros (vars & Hvars & _). discriminate.
Qed.

(** The sample [.env] next to an environment that sets the target
    country: the environment wins. *)
Lemma startup_started_iff_witness :
  startup (fun _ => None) (Some dotenv_sample) environ_sample
  = Started "t0ken" (mkGlobals "k3y" (-5) 7).
Proof.
  apply (proj2 (startup_started_iff (fun _ => None) (Some dotenv_sample) environ_sample
                  "t0ken" (mkGlobals "k3y" (-5) 7))).
  exists dotenv_sample. repeat split; try done.
Defined.

(** Globals the bot is started with: a token and a key that are not
    empty and two country ids that are values of [int] other than 0. *)
Theorem started_globals_valid bot_New dotenv (environ : gmap string string) token g :
  startup bot_New dotenv environ = Started token g ->
  token <> "" /\ ApiKey g <> ""
  /\ is_int (HoumeCountryID g) /\ HoumeCountryID g <> 0%Z
  /\ is_int (TargetCountryID g) /\ TargetCountryID g <> 0%Z.
Proof.
  unfold startup, init, Godotenv.Load, log_Fatal.
  destruct dotenv as [vars|]; simpl; [|discriminate].
  intros Hstart. apply main_started_iff in Hstart
    as (_ & Htok & _ & Hkey & Hhome & Hhome' & Htarget & Htarget' & _).
  unfold country_id in *.
  repeat split; try done; by eapply Atoi_is_int.
Qed.

Lemma started_globals_valid_witness :
  "t0ken" <> "" /\ ApiKey (mkGlobals "k3y" (-5) 7) <> ""
  /\ is_int (-5) /\ (-5)%Z <> 0%Z /\ is_int 7 /\ 7%Z <> 0%Z.
Proof.
  apply (started_globals_valid (fun _ => None) (Some dotenv_sample) environ_sample
           "t0ken" (mkGlobals "k3y" (-5) 7)).
  vm_compute. reflexivity.
Defined.

(** ** Text messages *)

(** Only the exact text "/start" is greeted, and the greeting costs no
    request; any other text, other commands included, is the query of one
    medicine search, written into the request as [encoding/json] writes
    a string: byte for byte when the text is valid UTF-8.  This holds
    whatever else the update carries next to the message. *)
Theorem text_message_dispatch g rt chat text callback :
  (text = "/start" ->
   ProcessUpdate g (Update.mk (Some (Message.mk chat text)) callback) rt
   = (Ret tt,
      [SendMessage
         {| SendMessageParams.ChatID := Chat.ID chat;
            SendMessageParams.Text :=
              "Привет. Я помогу вам найти аналоги лекарств в Таиланде. Для поиска введите название лекарства.";
            SendMessageParams.ReplyMarkup := None |}]))
  /\ (text <> "/start" ->
      Request.Body <$>
        requests (ProcessUpdate g (Update.mk (Some (Message.mk chat text)) callback) rt).2
      = [ JObject [ ("api_key", JString (json_string (ApiKey g)));
                    ("state", JString "main_search");
                    ("home_country", JNumber (HoumeCountryID g));
                    ("query", JString (json_string text)) ] ])
  /\ (text <> "/start" ->
      Utf8.ValidString text = true ->
      request_members "query"
        (ProcessUpdate g (Update.mk (Some (Message.mk chat text)) callback) rt).2
      = [Some (JString text)]).
Proof.
  assert (Hsearch : text <> "/start" ->
            requests (ProcessUpdate g (Update.mk (Some (Message.mk chat text)) callback) rt).2
            = [medicineRequest g text]).
  { intros Hne. rewrite ProcessUpdate_dispatch. simpl.
    destruct (String.eqb_spec text "/start") as [->|_]; [done|].
    by rewrite (searchMedicineHandler_requests g
                  (Update.mk (Some (Message.mk chat text)) callback)
                  (Message.mk chat text) rt eq_refl). }
  split; [|split].
  - intros ->. reflexivity.
  - intros Hne. by rewrite (Hsearch Hne).
  - intros Hne Hvalid. unfold request_members. rewrite (Hsearch Hne). simpl.
    by rewrite (json_string_valid _ Hvalid).
Qed.

(** "/start" itself, and "/start" followed by a bot name. *)
Lemma text_message_dispatch_witness :
  ProcessUpdate g0 (Update.mk (Some (Message.mk (Chat.mk 1001) "/start")) None) rt_twelve
  = (Ret tt,
     [SendMessage
        {| SendMessageParams.ChatID := 1001;
           SendMessageParams.Text :=
             "Привет. Я помогу вам найти аналоги лекарств в Таиланде. Для поиска введите название лекарства.";
           SendMessageParams.ReplyMarkup := None |}])
  /\ request_members "query"
       (ProcessUpdate g0
          (Update.mk (Some (Message.mk (Chat.mk 1001) "/start@pills")) None)
          rt_twelve).2
     = [Some (JString "/start@pills")].
Proof.
  split.
  - apply (proj1 (text_message_dispatch g0 rt_twelve (Chat.mk 1001) "/start" None)).
    reflexivity.
  - apply (proj2 (proj2 (text_message_dispatch g0 rt_twelve (Chat.mk 1001)
                           "/start@pills" None))).
    + discriminate.
    + reflexivity.
Defined.

(** ** Callback queries *)

(** A callback query whose payload starts with neither prefix is
    dropped: it is not answered, nothing is sent, logged or requested. *)
Theorem unknown_callback_ignored g rt cq :
  Strings.HasPrefix (CallbackQuery.Data cq) "search_analog" = false ->
  Strings.HasPrefix (CallbackQuery.Data cq) "show_medicine" = false ->
  ProcessUpdate g (Update.mk None (Some cq)) rt = (Ret tt, []).
Proof.
  intros Hanalog Hshow. rewrite ProcessUpdate_dispatch. simpl.
  by rewrite Hanalog, Hshow.
Qed.

Lemma unknown_callback_ignored_witness :
  ProcessUpdate g0 (callback_update "analog:42") rt_twelve_analogs = (Ret tt, []).
Proof.
  apply (unknown_callback_ignored g0 rt_twelve_analogs
           (CallbackQuery.mk "cb1" (Some chat1) "analog:42")).
  - reflexivity.
  - reflexivity.
Defined.

(** Both callback handlers acknowledge the query first, with its id and
    no alert, whatever happens next. *)
Theorem callback_answered_first g rt update cq :
  Update.CallbackQuery update = Some cq ->
  (exists rest,
     (searcheAnalogHandler g update rt).2
     = AnswerCallbackQuery (AnswerCallbackQueryParams.mk (CallbackQuery.ID cq) false)
       :: rest)
  /\ (exists rest,
        (showMedicineHandler g update rt).2
        = AnswerCallbackQuery (AnswerCallbackQueryParams.mk (CallbackQuery.ID cq) false)
          :: rest).
Proof.
  intros Hcq. split.
  - rewrite (searcheAnalogHandler_run _ _ _ _ Hcq). cbv zeta. split_run; simpl; eauto.
  - rewrite (showMedicineHandler_run _ _ _ _ Hcq). cbv zeta. split_run; simpl; eauto.
Qed.

Lemma callback_answered_first_witness :
  (exists rest,
     (searcheAnalogHandler g0 (callback_update "search_analog") rt_twelve).2
     = AnswerCallbackQuery (AnswerCallbackQueryParams.mk "cb1" false) :: rest)
  /\ (exists rest,
        (showMedicineHandler g0 (callback_update "search_analog") rt_twelve).2
        = AnswerCallbackQuery (AnswerCallbackQueryParams.mk "cb1" false) :: rest).
Proof.
  apply (callback_answered_first g0 rt_twelve (callback_update "search_analog")
           (CallbackQuery.mk "cb1" (Some chat1) "search_analog")).
  reflexivity.
Defined.

(** The price handler looks nothing up: it never sends a request, and
    on a payload with an id part it replies with the fixed text followed
    by the id as [Atoi] returns it with the error dropped: the number,
    0 on a syntax error, the nearest bound of [int] on a range error. *)
Theorem showMedicineHandler_no_lookup g rt update :
  requests (showMedicineHandler g update rt).2 = []
  /\ forall cq message field,
       Update.CallbackQuery update = Some cq ->
       CallbackQuery.Message cq = Some message ->
       Strings.Split (CallbackQuery.Data cq) ":" !! 1 = Some field ->
       sent (showMedicineHandler g update rt).2
       = [ {| SendMessageParams.ChatID := Chat.ID (Message.Chat message);
              SendMessageParams.Text :=
                "Тут инфа по ценам для MedicineId="
                +:+ Strconv.Itoa (Strconv.Atoi field).1;
              SendMessageParams.ReplyMarkup := None |} ].
Proof.
  split.
  - destruct (Update.CallbackQuery update) as [cq|] eqn:Hcq.
    + rewrite (showMedicineHandler_run _ _ _ _ Hcq). cbv zeta. by split_run.
    + unfold showMedicineHandler. by rewrite Hcq.
  - intros cq message field Hcq Hmsg Hfield.
    by rewrite (showMedicineHandler_run _ _ _ _ Hcq), Hfield, Hmsg.
Qed.

Lemma showMedicineHandler_no_lookup_witness :
  sent (showMedicineHandler g0 (callback_update "show_medicine:17") rt_twelve).2
  = [ {| SendMessageParams.ChatID := 1001;
         SendMessageParams.Text := "Тут инфа по ценам для MedicineId=17";
         SendMessageParams.ReplyMarkup := None |} ].
Proof.
  apply (proj2 (showMedicineHandler_no_lookup g0 rt_twelve
                  (callback_update "show_medicine:17"))
           (CallbackQuery.mk "cb1" (Some chat1) "show_medicine:17") chat1 "17").
  - reflexivity.
  - reflexivity.
  - reflexivity.
Defined.

Lemma own_payload_prefix id :
  Strings.HasPrefix ("search_analog:" +:+ id) "search_analog" = true.
Proof. reflexivity. Qed.

Lemma own_payload_split id :
  Strings.Count id ":" = 0 ->
  Strings.Split ("search_analog:" +:+ id) ":" = ["search_analog"; id].
Proof.
  intros Hid.
  change ("search_analog:" +:+ id) with ("search_analog" +:+ String ":" id).
  rewrite Split_prefix by reflexivity. by rewrite Split_no_sep.
Qed.

Lemma dispatch_search_analog g cq :
  Strings.HasPrefix (CallbackQuery.Data cq) "search_analog" = true ->
  ProcessUpdate g (Update.mk None (Some cq))
  = searcheAnalogHandler g (Update.mk None (Some cq)).
Proof.
  intros Hprefix. rewrite ProcessUpdate_dispatch. simpl. by rewrite Hprefix.
Qed.

(** From a search result to the analog request: pressing the button
    built for a medicine whose id is the decimal text of an [int] sends
    the analog request for that very number. *)
Theorem own_button_round_trip g rt medicine n queryID message :
  Medicine.ID medicine = Strconv.Itoa n ->
  is_int n ->
  Forall (fun button =>
            requests
              (ProcessUpdate g
                 (Update.mk None
                    (Some (CallbackQuery.mk queryID (Some message)
                             (InlineKeyboardButton.CallbackData button))))
                 rt).2
            = [analogRequest g n])
         (medicineButton medicine).
Proof.
  intros Hid Hn. unfold medicineButton. constructor; [|constructor].
  change (InlineKeyboardButton.CallbackData _)
    with ("search_analog:" +:+ Medicine.ID medicine).
  rewrite Hid.
  rewrite dispatch_search_analog by apply own_payload_prefix.
  rewrite (searcheAnalogHandler_requests g
             (Update.mk None
                (Some (CallbackQuery.mk queryID (Some message)
                         ("search_analog:" +:+ Strconv.Itoa n))))
             (CallbackQuery.mk queryID (Some message) ("search_analog:" +:+ Strconv.Itoa n))
             rt eq_refl).
  change (CallbackQuery.Data _) with ("search_analog:" +:+ Strconv.Itoa n).
  rewrite own_payload_split by apply Itoa_no_colon.
  change (_ !! 1) with (Some (Strconv.Itoa n)). cbv iota.
  by rewrite Atoi_Itoa.
Qed.

(** The third of twelve medicines. *)
Lemma own_button_round_trip_witness :
  Forall (fun button =>
            requests
              (ProcessUpdate g0
                 (Update.mk None
                    (Some (CallbackQuery.mk "cb1" (Some chat1)
                             (InlineKeyboardButton.CallbackData button))))
                 rt_twelve_analogs).2
            = [analogRequest g0 3])
         (medicineButton (med 3)).
Proof.
  apply (own_button_round_trip g0 rt_twelve_analogs (med 3) 3 "cb1" chat1).
  - reflexivity.
  - unfold is_int. lia.
Defined.

(** An id part that overflows before its first bad byte is shown as
    the largest [int]. *)
Example showMedicineHandler_overflow :
  sent (showMedicineHandler g0 (callback_update "show_medicine:99999999999999999999x")
          rt_twelve).2
  = [ {| SendMessageParams.ChatID := 1001;
         SendMessageParams.Text := "Тут инфа по ценам для MedicineId=9223372036854775807";
         SendMessageParams.ReplyMarkup := None |} ].
Proof. vm_compute. reflexivity. Qed.

(** The conversion error of the id part is dropped: when the conversion
    stops with a syntax error (the id part is empty, or has a byte that
    is not a digit before its digits overflow), the API is asked for the
    analogs of medicine 0. *)
Theorem unparsable_id_queries_zero g rt update cq field v :
  Update.CallbackQuery update = Some cq ->
  Strings.Split (CallbackQuery.Data cq) ":" !! 1 = Some field ->
  Strconv.Atoi field = (v, Some (NumError "Atoi" field ErrSyntax)) ->
  requests (searcheAnalogHandler g update rt).2 = [analogRequest g 0].
Proof.
  intros Hcq Hfield Hatoi.
  rewrite (searcheAnalogHandler_requests _ _ _ _ Hcq), Hfield, Hatoi. simpl.
  by rewrite (Atoi_syntax_zero _ _ _ _ Hatoi).
Qed.

Lemma unparsable_id_queries_zero_witness :
  requests (searcheAnalogHandler g0 (callback_update "search_analog:abc")
              rt_twelve_analogs).2
  = [analogRequest g0 0].
Proof.
  apply (unparsable_id_queries_zero g0 rt_twelve_analogs
           (callback_update "search_analog:abc")
           (CallbackQuery.mk "cb1" (Some chat1) "search_analog:abc") "abc" 0).
  - reflexivity.
  - reflexivity.
  - reflexivity.
Defined.

(** On a range error the request is for the nearest bound of [int]. *)
Example overflowing_id_queries_bound :
  requests (searcheAnalogHandler g0
              (callback_update "search_analog:99999999999999999999x")
              rt_twelve_analogs).2
  = [analogRequest g0 9223372036854775807].
Proof. vm_compute. reflexivity. Qed.

(** ** The two API calls, in full *)

(** [searchMedicines] always returns: with an error the list is empty;
    it logs the query first and then each error it returns, once, and
    nothing else. *)
Theorem searchMedicines_result g query rt :
  exists medicines err,
    (searchMedicines g query rt).1 = Ret (medicines, err)
    /\ (medicines = [] \/ err = None)
    /\ observable (searchMedicines g query rt).2
       = medicineLog query
         :: match err with Some e => [LogPrintln e] | None => [] end.
Proof.
  rewrite searchMedicines_run. split_run; simpl; eexists _, _; eauto.
Qed.

(** [searchAnalogs] always returns; it logs the id first and then each
    error it returns, once, and nothing else; a failed round trip gives
    no analogs and the zero info. *)
Theorem searchAnalogs_result g medicineID rt :
  exists analogs info err,
    (searchAnalogs g medicineID rt).1 = Ret (analogs, info, err)
    /\ observable (searchAnalogs g medicineID rt).2
       = analogLog medicineID
         :: match err with Some e => [LogPrintln e] | None => [] end
    /\ match client_Do rt (analogRequest g medicineID) with
       | inr e => analogs = [] /\ info = MedicineInfo.zero /\ err = Some e
       | inl _ => True
       end.
Proof.
  rewrite searchAnalogs_run. split_run; simpl; eexists _, _, _; eauto.
Qed.

(** ** Replies *)

(** A text message is always answered: whatever the API does, the run
    returns and sends exactly one message, to the chat of the message. *)
Theorem text_message_one_reply g rt chat text :
  exists trace p,
    ProcessUpdate g (Update.mk (Some (Message.mk chat text)) None) rt = (Ret tt, trace)
    /\ sent trace = [p]
    /\ SendMessageParams.ChatID p = Chat.ID chat.
Proof.
  rewrite ProcessUpdate_dispatch. simpl.
  destruct (String.eqb text "/start").
  - eexists _, _. split; [reflexivity|]. split; reflexivity.
  - rewrite (searchMedicineHandler_run g
               (Update.mk (Some (Message.mk chat text)) None)
               (Message.mk chat text) rt eq_refl).
    split_run; simpl; eexists _, _; (split; [reflexivity|]);
      (split; [reflexivity|]);
      match goal with
      | |- context [if ?b then _ else _] => by destruct b
      | _ => reflexivity
      end.
Qed.

(** An update without a message that is a callback query for one of
    the two callback handlers, carries its message and has a colon in
    its payload is always answered: the run returns, the query is
    acknowledged, and exactly one message goes to the chat of the
    query's message. *)
Theorem callback_one_reply g rt update cq message :
  Update.Message update = None ->
  Update.CallbackQuery update = Some cq ->
  CallbackQuery.Message cq = Some message ->
  Strings.HasPrefix (CallbackQuery.Data cq) "search_analog" = true
  \/ Strings.HasPrefix (CallbackQuery.Data cq) "show_medicine" = true ->
  0 < Strings.Count (CallbackQuery.Data cq) ":" ->
  exists trace p,
    ProcessUpdate g update rt = (Ret tt, trace)
    /\ chat trace
       = [ AnswerCallbackQuery (AnswerCallbackQueryParams.mk (CallbackQuery.ID cq) false);
           SendMessage p ]
    /\ SendMessageParams.ChatID p = Chat.ID (Message.Chat message).
Proof.
  intros Hnone Hcq Hmsg Hprefix Hcolon.
  apply id_part_in_bounds in Hcolon as [field Hfield].
  rewrite ProcessUpdate_dispatch, Hnone, Hcq.
  destruct (Strings.HasPrefix (CallbackQuery.Data cq) "search_analog") eqn:Hanalog.
  - rewrite (searcheAnalogHandler_run _ _ _ _ Hcq), Hfield, searchAnalogs_run, Hmsg.
    cbv zeta. split_run; simpl; eexists _, _; (split; [reflexivity|]);
      (split; [reflexivity|]);
      match goal with
      | |- context [if ?b then _ else _] => by destruct b
      | _ => reflexivity
      end.
  - destruct Hprefix as [Hprefix|Hprefix]; [discriminate|]. rewrite Hprefix.
    rewrite (showMedicineHandler_run _ _ _ _ Hcq), Hfield, Hmsg.
    eexists _, _. split; [reflexivity|]. split; reflexivity.
Qed.

Lemma callback_one_reply_witness :
  exists trace p,
    ProcessUpdate g0 (callback_update "search_analog:42") rt_decode_failure = (Ret tt, trace)
    /\ chat trace
       = [ AnswerCallbackQuery (AnswerCallbackQueryParams.mk "cb1" false);
           SendMessage p ]
    /\ SendMessageParams.ChatID p = 1001%Z.
Proof.
  apply (callback_one_reply g0 rt_decode_failure (callback_update "search_analog:42")
           (CallbackQuery.mk "cb1" (Some chat1) "search_analog:42") chat1).
  - reflexivity.
  - reflexivity.
  - reflexivity.
  - left. reflexivity.
  - vm_compute. lia.
Defined.
